(** * The device-dispatched geometric kernel layer of Open3D

    A shallow embedding of
      - cpp/open3d/t/geometry/kernel/PointCloud.cpp
        (Unproject, Project, IsValidRigidTransformation, Transform)
      - cpp/open3d/t/pipelines/kernel/RGBDOdometry.cpp
        (CreateVertexMap, CreateNormalMap)

    The functions of these files validate their arguments, normalise some of
    them and hand over to a CPU or CUDA kernel.  They are written here in a
    state-and-error monad over a machine that holds the tensor buffers (so
    that aliasing between a tensor and its views or lazy copies is visible)
    and the list of the kernels launched so far.

    Scalars are exact rationals: a [float] or [double] stands for the number
    it denotes.  Rounding and the IEEE special values are outside this
    embedding. *)

From Stdlib Require Import QArith Qround String Bool Lia.
From stdpp Require Import base option list.

Local Open Scope nat_scope.
Local Open Scope list_scope.

(** ** Scalars *)

(** [a > b] on scalars, as a test. *)
Definition Qgtb (a b : Q) : bool := negb (Qle_bool a b).

(** [a != b] on scalars, as a test. *)
Definition Qneb (a b : Q) : bool := negb (Qeq_bool a b).

(** ** Devices, dtypes and tensors (core::Device, core::Dtype, core::Tensor) *)

(** core::Device::DeviceType.  The dispatchers end in an [else] branch for a
    device type that is neither CPU nor CUDA; [OtherDevice] stands for any
    such value. *)
Inductive DeviceType := CPU | CUDA | OtherDevice (tag : nat).

Record Device := mkDevice { GetType : DeviceType; GetID : nat }.

Inductive Dtype :=
  Undefined | Float32 | Float64 | Int32 | Int64 | UInt8 | UInt16 | Bool_.

#[global] Instance DeviceType_eq_dec : EqDecision DeviceType.
Proof. solve_decision. Defined.
#[global] Instance Device_eq_dec : EqDecision Device.
Proof. solve_decision. Defined.
#[global] Instance Dtype_eq_dec : EqDecision Dtype.
Proof. solve_decision. Defined.

(** core::Device("CPU:0") *)
Definition host : Device := mkDevice CPU 0.

(** A tensor is a view of a buffer: the buffer's identity [blob], the position
    [offset] of the view's first element in it, and a stride per dimension.
    Two tensors with the same [blob] share their data. *)
Record Tensor := mkTensor {
  GetShape : list nat;
  GetStrides : list nat;
  GetDtype : Dtype;
  GetDevice : Device;
  blob : nat;
  offset : nat
}.

(** The machine: the buffers, addressed by their position in [heap], and the
    kernels launched so far, oldest first. *)
Definition Heap := list (list Q).

(** ** Layout *)

(** Strides of the dense row-major layout of a shape. *)
Fixpoint DefaultStrides (shape : list nat) : list nat :=
  match shape with
  | [] => []
  | _ :: rest => fold_right Nat.mul 1 rest :: DefaultStrides rest
  end.

Definition NumElements (shape : list nat) : nat := fold_right Nat.mul 1 shape.

Definition IsContiguous (t : Tensor) : bool :=
  bool_decide (GetStrides t = DefaultStrides (GetShape t)).

(** Buffer positions of the elements of a view, in row-major order of their
    indices. *)
Fixpoint element_offsets (shape strides : list nat) (base : nat) : list nat :=
  match shape, strides with
  | n :: shape', s :: strides' =>
      flat_map (fun i => element_offsets shape' strides' (base + i * s))
               (seq 0 n)
  | _, _ => [base]
  end.

(** The buffer of a tensor. *)
Definition buffer (h : Heap) (t : Tensor) : list Q := default [] (h !! blob t).

(** [ptr[i]]: a read at position [i] from a raw pointer.  A read past the end
    of the buffer is undefined in C++; it yields [0] here, a value that
    stands for nothing: a property that depends on such a read is stated
    for reads within the buffer only (see [reads_in_bounds]). *)
Definition load (ptr : list Q) (i : nat) : Q := nth i ptr 0%Q.

(** Tensor::GetDataPtr: the raw data from the first element of the view on,
    in buffer order, whatever the strides are. *)
Definition GetDataPtr (h : Heap) (t : Tensor) : list Q :=
  drop (offset t) (buffer h t).

(** The elements of a tensor in row-major order of their indices. *)
Definition elements (h : Heap) (t : Tensor) : list Q :=
  map (load (buffer h t))
      (element_offsets (GetShape t) (GetStrides t) (offset t)).

(** ** Kernels and the machine *)

Inductive Backend := OnCPU | OnCUDA.

(** The arguments a dispatcher hands to a backend kernel, one constructor per
    kernel signature. *)
Inductive KernelArgs :=
  | UnprojectArgs (depth : Tensor) (image_colors : option Tensor)
      (points : Tensor) (colors : option Tensor)
      (intrinsics extrinsics : Tensor) (depth_scale depth_max : Q) (stride : Z)
  | ProjectArgs (depth : Tensor) (image_colors : option Tensor)
      (points : Tensor) (colors : option Tensor)
      (intrinsics extrinsics : Tensor) (depth_scale depth_max : Q)
  | TransformArgs (points transformation : Tensor)
  | TransformNormalsArgs (points normals transformation : Tensor)
  | CreateVertexMapArgs (depth_map intrinsics vertex_map : Tensor)
      (depth_scale depth_max : Q)
  | CreateNormalMapArgs (vertex_map normal_map : Tensor)
      (depth_scale depth_max depth_diff : Q).

Record KernelCall := Launch { backend : Backend; kernel_args : KernelArgs }.

Definition UnprojectCPU d ic p c i e s m st :=
  Launch OnCPU (UnprojectArgs d ic p c i e s m st).
Definition UnprojectCUDA d ic p c i e s m st :=
  Launch OnCUDA (UnprojectArgs d ic p c i e s m st).
Definition ProjectCPU d ic p c i e s m :=
  Launch OnCPU (ProjectArgs d ic p c i e s m).
Definition ProjectCUDA d ic p c i e s m :=
  Launch OnCUDA (ProjectArgs d ic p c i e s m).
Definition TransformCPU p t := Launch OnCPU (TransformArgs p t).
Definition TransformCUDA p t := Launch OnCUDA (TransformArgs p t).
Definition TransformNormalsCPU p n t := Launch OnCPU (TransformNormalsArgs p n t).
Definition TransformNormalsCUDA p n t := Launch OnCUDA (TransformNormalsArgs p n t).
Definition CreateVertexMapCPU d i v s m :=
  Launch OnCPU (CreateVertexMapArgs d i v s m).
Definition CreateVertexMapCUDA d i v s m :=
  Launch OnCUDA (CreateVertexMapArgs d i v s m).
Definition CreateNormalMapCPU v n s m dd :=
  Launch OnCPU (CreateNormalMapArgs v n s m dd).
Definition CreateNormalMapCUDA v n s m dd :=
  Launch OnCUDA (CreateNormalMapArgs v n s m dd).

Record Machine := mkMachine { heap : Heap; launched : list KernelCall }.

Inductive Assertion := AssertShapeFailed | AssertDtypeFailed | AssertDeviceFailed.

(** What a fatal error carries: the text given to utility::LogError (format
    arguments are not substituted into it), the failed tensor assertion, or a
    call of a CUDA function in a build without CUDA. *)
Inductive Error :=
  | Message (text : string)
  | Assert (a : Assertion)
  | NotBuiltWithCUDA.

Inductive Outcome (A : Type) :=
  | Ok (a : A)
  | Fatal (e : Error).
Arguments Ok {A} a.
Arguments Fatal {A} e.

(** A computation runs on a machine and either returns or throws; a throw
    keeps the machine it was raised on. *)
Definition M (A : Type) : Type := Machine -> Outcome A * Machine.

Definition ret {A} (a : A) : M A := fun m => (Ok a, m).

Definition bind {A B} (c : M A) (k : A -> M B) : M B :=
  fun m => match c m with
           | (Ok a, m') => k a m'
           | (Fatal e, m') => (Fatal e, m')
           end.

Declare Scope dispatch_scope.
Delimit Scope dispatch_scope with dispatch.
Notation "x <- c ;; k" := (bind c (fun x => k))
  (at level 100, c at next level, right associativity) : dispatch_scope.
Notation "c ;; k" := (bind c (fun _ => k))
  (at level 100, right associativity) : dispatch_scope.
Local Open Scope dispatch_scope.

(** utility::LogError throws. *)
Definition LogError {A} (text : string) : M A := fun m => (Fatal (Message text), m).

Definition throw {A} (e : Error) : M A := fun m => (Fatal e, m).

Definition get_heap : M Heap := fun m => (Ok (heap m), m).

(** A new buffer, placed after the existing ones. *)
Definition alloc (data : list Q) : M nat :=
  fun m => (Ok (length (heap m)), mkMachine (heap m ++ [data]) (launched m)).

(** ** The tensor collaborator *)

(** Modelled from the spec: Tensor::AssertShape, Tensor::AssertDtype and
    Tensor::AssertDevice (core/Tensor.h, not under src/).  A mismatch is "a
    fatal precondition error, not an implicit cast". *)
Definition AssertShape (t : Tensor) (shape : list nat) : M unit :=
  if decide (GetShape t = shape) then ret tt else throw (Assert AssertShapeFailed).
Definition AssertDtype (t : Tensor) (dtype : Dtype) : M unit :=
  if decide (GetDtype t = dtype) then ret tt else throw (Assert AssertDtypeFailed).
Definition AssertDevice (t : Tensor) (device : Device) : M unit :=
  if decide (GetDevice t = device) then ret tt else throw (Assert AssertDeviceFailed).

(** A dense copy of a tensor in a new buffer, with the given dtype and
    device. *)
Definition dense_copy (t : Tensor) (dtype : Dtype) (device : Device) : M Tensor :=
  h <- get_heap ;;
  b <- alloc (elements h t) ;;
  ret (mkTensor (GetShape t) (DefaultStrides (GetShape t)) dtype device b 0).

(** Modelled from the spec: Tensor::To and Tensor::Contiguous (core/Tensor.h,
    not under src/), the "host/device data transfer" and "contiguity ensure"
    of the tensor collaborator.  Both are lazy, as in the library: a tensor
    that already has the requested dtype and device, or a dense layout, is
    returned as it is and keeps sharing its buffer; otherwise the result is a
    dense copy ("internal buffers may be copied").  Unproject relies on this
    when it calls Contiguous on the result of To, and Transform when it runs
    the kernel on a tensor and returns the result of Contiguous. *)
Definition ToDtype (t : Tensor) (dtype : Dtype) : M Tensor :=
  if decide (GetDtype t = dtype) then ret t
  else dense_copy t dtype (GetDevice t).
Definition ToDevice (t : Tensor) (device : Device) : M Tensor :=
  if decide (GetDevice t = device) then ret t
  else dense_copy t (GetDtype t) device.
Definition To (t : Tensor) (device : Device) (dtype : Dtype) : M Tensor :=
  t' <- ToDtype t dtype ;; ToDevice t' device.
Definition Contiguous (t : Tensor) : M Tensor :=
  if IsContiguous t then ret t
  else dense_copy t (GetDtype t) (GetDevice t).

(** ** cpp/open3d/t/geometry/kernel/PointCloud.cpp *)

Definition has_value {A} (o : option A) : bool :=
  match o with Some _ => true | None => false end.

(** IsValidRigidTransformation, on the raw row of doubles it is given. *)
Definition IsValidRigidTransformation (transformation_ptr : list Q) : bool :=
  if Qgtb (load transformation_ptr 0) 1 || Qgtb (load transformation_ptr 1) 1 ||
     Qgtb (load transformation_ptr 2) 1 || Qgtb (load transformation_ptr 4) 1 ||
     Qgtb (load transformation_ptr 5) 1 || Qgtb (load transformation_ptr 6) 1 ||
     Qgtb (load transformation_ptr 8) 1 || Qgtb (load transformation_ptr 9) 1 ||
     Qgtb (load transformation_ptr 10) 1 || Qneb (load transformation_ptr 12) 0 ||
     Qneb (load transformation_ptr 13) 0 || Qneb (load transformation_ptr 14) 0
  then false
  else true.

Section Dispatch.

(** Whether the build defines BUILD_CUDA_MODULE. *)
Variable BUILD_CUDA_MODULE : bool.

(** What a backend kernel does to the buffers.  The kernels are not under
    src/; the dispatchers are written for any of them. *)
Variable exec : KernelCall -> Heap -> Heap.

Definition launch (k : KernelCall) : M unit :=
  fun m => (Ok tt, mkMachine (exec k (heap m)) (launched m ++ [k])).

(** Modelled from the spec: the CUDA_CALL macro (core/CUDAUtils.h, not under
    src/): "calling a GPU path without GPU support is a fatal configuration
    error, not a silent CPU fallback". *)
Definition CUDA_CALL (k : KernelCall) : M unit :=
  if BUILD_CUDA_MODULE then launch k else throw NotBuiltWithCUDA.

Definition Unproject (depth : Tensor) (image_colors : option Tensor)
    (points : Tensor) (colors : option Tensor)
    (intrinsics extrinsics : Tensor)
    (depth_scale depth_max : Q) (stride : Z) : M unit :=
  (if negb (eqb (has_value image_colors) (has_value colors))
   then LogError "[Unproject] Both or none of image_colors and colors must have values."
   else ret tt) ;;
  let device := GetDevice depth in
  let device_type := GetType device in
  intrinsics_d <- (t <- To intrinsics host Float64 ;; Contiguous t) ;;
  extrinsics_d <- (t <- To extrinsics host Float64 ;; Contiguous t) ;;
  match device_type with
  | CPU => launch (UnprojectCPU depth image_colors points colors intrinsics_d
                                extrinsics_d depth_scale depth_max stride)
  | CUDA => CUDA_CALL (UnprojectCUDA depth image_colors points colors
                                     intrinsics_d extrinsics_d depth_scale
                                     depth_max stride)
  | _ => LogError "Unimplemented device"
  end.

Definition Project (depth : Tensor) (image_colors : option Tensor)
    (points : Tensor) (colors : option Tensor)
    (intrinsics extrinsics : Tensor)
    (depth_scale depth_max : Q) : M unit :=
  (if negb (eqb (has_value image_colors) (has_value colors))
   then LogError "[Project] Both or none of image_colors and colors must have values."
   else ret tt) ;;
  let device := GetDevice depth in
  let device_type := GetType device in
  match device_type with
  | CPU => launch (ProjectCPU depth image_colors points colors intrinsics
                              extrinsics depth_scale depth_max)
  | CUDA => CUDA_CALL (ProjectCUDA depth image_colors points colors intrinsics
                                   extrinsics depth_scale depth_max)
  | _ => LogError "Unimplemented device"
  end.

(** The rigid-transform test both overloads of Transform start with, after
    their assertions. *)
Definition check_transformation (transformation : Tensor) : M unit :=
  t <- To transformation host Float64 ;;
  h <- get_heap ;;
  if negb (IsValidRigidTransformation (GetDataPtr h t))
  then LogError "Invalid Transformation Matrix. Only Rigid Transformation is supported."
  else ret tt.

(** Transform(points, transformation).  The result is the value of the
    caller's [points] on return. *)
Definition Transform (points transformation : Tensor) : M Tensor :=
  AssertShape transformation [4; 4] ;;
  let dtype := GetDtype points in
  AssertDtype transformation dtype ;;
  let device := GetDevice points in
  AssertDevice transformation device ;;
  check_transformation transformation ;;
  points_contiguous <- Contiguous points ;;
  transformation_contiguous <- Contiguous transformation ;;
  let device_type := GetType device in
  match device_type with
  | CPU => launch (TransformCPU points transformation)
  | CUDA => CUDA_CALL (TransformCUDA points transformation)
  | _ => LogError "Unimplemented device"
  end ;;
  ret points_contiguous.

(** Transform(points, normals, transformation).  The result is the value of
    the caller's [points] and [normals] on return. *)
Definition TransformWithNormals (points normals transformation : Tensor)
    : M (Tensor * Tensor) :=
  AssertShape transformation [4; 4] ;;
  let dtype := GetDtype points in
  AssertDtype transformation dtype ;;
  AssertDtype normals dtype ;;
  let device := GetDevice points in
  AssertDevice transformation device ;;
  AssertDevice normals device ;;
  check_transformation transformation ;;
  points_contiguous <- Contiguous points ;;
  normals_contiguous <- Contiguous normals ;;
  transformation_contiguous <- Contiguous transformation ;;
  let device_type := GetType device in
  match device_type with
  | CPU => launch (TransformNormalsCPU points normals transformation_contiguous)
  | CUDA => CUDA_CALL (TransformNormalsCUDA points normals
                                            transformation_contiguous)
  | _ => LogError "Unimplemented device"
  end ;;
  ret (points_contiguous, normals_contiguous).

(** ** cpp/open3d/t/pipelines/kernel/RGBDOdometry.cpp *)

Definition CreateVertexMap (depth_map intrinsics vertex_map : Tensor)
    (depth_scale depth_max : Q) : M unit :=
  let device := GetDevice depth_map in
  (if negb (bool_decide (device = GetDevice intrinsics))
   then LogError "Inconsistent device between depth_map ({}) vs intrinsics ({})"
   else ret tt) ;;
  match GetType device with
  | CPU => launch (CreateVertexMapCPU depth_map intrinsics vertex_map
                                      depth_scale depth_max)
  | CUDA =>
      if BUILD_CUDA_MODULE
      then launch (CreateVertexMapCUDA depth_map intrinsics vertex_map
                                       depth_scale depth_max)
      else LogError "Not compiled with CUDA, but CUDA device is used."
  | _ => LogError "Unimplemented device."
  end.

Definition CreateNormalMap (vertex_map normal_map : Tensor)
    (depth_scale depth_max depth_diff : Q) : M unit :=
  let device := GetDevice vertex_map in
  match GetType device with
  | CPU => launch (CreateNormalMapCPU vertex_map normal_map depth_scale
                                      depth_max depth_diff)
  | CUDA =>
      if BUILD_CUDA_MODULE
      then launch (CreateNormalMapCUDA vertex_map normal_map depth_scale
                                       depth_max depth_diff)
      else LogError "Not compiled with CUDA, but CUDA device is used."
  | _ => LogError "Unimplemented device."
  end.

End Dispatch.

(** ** Reference kernels *)

(** Modelled from the spec: the Transform kernels (PointCloudCPU.cpp and
    PointCloudCUDA.cu, not under src/): "points transform as p' = R·p + t;
    normals transform by n' = R·n only".  The kernels read and write dense
    rows through raw pointers ("buffers are forced to a dense, stride-1
    contiguous layout before any kernel touches them"); the entries of the
    matrix are read in row-major order. *)
Definition transform_point (T : list Q) (x y z : Q) : Q * Q * Q :=
  (load T 0 * x + load T 1 * y + load T 2 * z + load T 3,
   load T 4 * x + load T 5 * y + load T 6 * z + load T 7,
   load T 8 * x + load T 9 * y + load T 10 * z + load T 11)%Q.

Definition rotate_normal (T : list Q) (x y z : Q) : Q * Q * Q :=
  (load T 0 * x + load T 1 * y + load T 2 * z,
   load T 4 * x + load T 5 * y + load T 6 * z,
   load T 8 * x + load T 9 * y + load T 10 * z)%Q.

(** The first [n] rows of three scalars behind a pointer, each replaced by its
    image; what follows them stays. *)
Fixpoint map_rows (f : Q -> Q -> Q -> Q * Q * Q) (n : nat) (ptr : list Q)
    : list Q :=
  match n, ptr with
  | S n', x :: y :: z :: rest =>
      let '(x', y', z') := f x y z in x' :: y' :: z' :: map_rows f n' rest
  | _, _ => ptr
  end.

(** Tensor::GetLength: the size of the first dimension. *)
Definition GetLength (t : Tensor) : nat := hd 0 (GetShape t).

(** The buffer of [t] with the data behind its pointer replaced. *)
Definition store (h : Heap) (t : Tensor) (data : list Q) : Heap :=
  <[blob t := take (offset t) (buffer h t) ++ data]> h.

Definition TransformPointsKernel (points transformation : Tensor) (h : Heap)
    : Heap :=
  store h points
        (map_rows (transform_point (GetDataPtr h transformation))
                  (GetLength points) (GetDataPtr h points)).

Definition TransformNormalsKernel (points normals transformation : Tensor)
    (h : Heap) : Heap :=
  let T := GetDataPtr h transformation in
  let h1 := store h points
              (map_rows (transform_point T) (GetLength points)
                        (GetDataPtr h points)) in
  store h1 normals
        (map_rows (rotate_normal T) (GetLength points) (GetDataPtr h1 normals)).

(** Modelled from the spec: the Project kernels (PointCloudCPU.cpp and
    PointCloudCUDA.cu, not under src/), for the depth image.  "Each point is
    transformed world->camera via extrinsics, then projected through
    intrinsics to pixel coordinates (u, v) and a depth value.  A point is
    discarded if its projected depth is <= 0 or > depth_max, or if (u, v)
    falls outside the image bounds."  (u, v) is taken down to the pixel that
    contains it; a pixel is named by its flat position in the image. *)
Definition project_point (K E : list Q) (W H : nat) (depth_max : Q)
    (x y z : Q) : option (nat * Q) :=
  let '(xc, yc, zc) := transform_point E x y z in
  if Qle_bool zc 0 || Qgtb zc depth_max then None
  else
    let u := Qfloor (load K 0 * xc / zc + load K 2) in
    let v := Qfloor (load K 4 * yc / zc + load K 5) in
    if ((0 <=? u) && (u <? Z.of_nat W) && (0 <=? v) && (v <? Z.of_nat H))%Z
    then Some (Z.to_nat v * W + Z.to_nat u, zc)
    else None.

(** "The point with the smallest valid depth wins": a compare-and-update of
    one pixel of the z-buffer, where [None] is a pixel no point has reached. *)
Definition nearest_wins (zbuf : list (option Q)) (px : nat) (d : Q)
    : list (option Q) :=
  match zbuf !! px with
  | Some (Some d0) => if Qgtb d0 d then <[px := Some d]> zbuf else zbuf
  | Some None => <[px := Some d]> zbuf
  | None => zbuf
  end.

(** The z-buffer after the first [n] points behind a pointer. *)
Fixpoint rasterize (proj : Q -> Q -> Q -> option (nat * Q)) (n : nat)
    (ptr : list Q) (zbuf : list (option Q)) : list (option Q) :=
  match n, ptr with
  | S n', x :: y :: z :: rest =>
      rasterize proj n' rest
                (match proj x y z with
                 | Some (px, d) => nearest_wins zbuf px d
                 | None => zbuf
                 end)
  | _, _ => zbuf
  end.

(** "Output depth is stored scaled by depth_scale; pixels with no
    contributing point retain their pre-existing value." *)
Definition resolve (depth_scale : Q) (old : Q) (z : option Q) : Q :=
  match z with
  | Some d => (d * depth_scale)%Q
  | None => old
  end.

Definition ProjectKernel (depth points intrinsics extrinsics : Tensor)
    (depth_scale depth_max : Q) (h : Heap) : Heap :=
  let H := nth 0 (GetShape depth) 0 in
  let W := nth 1 (GetShape depth) 0 in
  let proj := project_point (elements h intrinsics) (elements h extrinsics)
                            W H depth_max in
  let zbuf := rasterize proj (GetLength points) (GetDataPtr h points)
                        (replicate (H * W) None) in
  let old := GetDataPtr h depth in
  store h depth
        (zip_with (resolve depth_scale) (take (H * W) old) zbuf
         ++ drop (H * W) old).

(** A backend implements the Transform kernels of the spec. *)
Definition implements_transform (exec : KernelCall -> Heap -> Heap) : Prop :=
  (forall b p t h, exec (Launch b (TransformArgs p t)) h = TransformPointsKernel p t h) /\
  (forall b p n t h,
      exec (Launch b (TransformNormalsArgs p n t)) h = TransformNormalsKernel p n t h).


(** A backend implements the depth part of the Project kernels of the spec. *)
Definition implements_project (exec : KernelCall -> Heap -> Heap) : Prop :=
  forall b d ic p cs i e s mx h,
    exec (Launch b (ProjectArgs d ic p cs i e s mx)) h = ProjectKernel d p i e s mx h.

(** The backend of the reference kernels above.  The kernels of Unproject,
    CreateVertexMap and CreateNormalMap are not modelled; no property below
    depends on what they compute, and they leave the buffers alone here. *)
Definition reference_backend (k : KernelCall) (h : Heap) : Heap :=
  match kernel_args k with
  | TransformArgs p t => TransformPointsKernel p t h
  | TransformNormalsArgs p n t => TransformNormalsKernel p n t h
  | ProjectArgs d _ p _ i e s mx => ProjectKernel d p i e s mx h
  | _ => h
  end.

(** ** Vocabulary of the properties *)

(** The row of doubles that the rigid-transform test of Transform reads: the
    raw data of [transformation.To(Device("CPU:0"), Float64)]. *)
Definition check_data (m : Machine) (transformation : Tensor) : list Q :=
  match To transformation host Float64 m with
  | (Ok t, m') => GetDataPtr (heap m') t
  | (Fatal _, _) => []
  end.

(** Flat positions of the upper-left 3x3 block and of the first three entries
    of the bottom row in a row-major 4x4 matrix. *)
Definition rotation_block : list nat := [0; 1; 2; 4; 5; 6; 8; 9; 10].
Definition bottom_row : list nat := [12; 13; 14].

(** Strides and shape of a tensor have the same rank. *)
Definition well_formed (t : Tensor) : Prop :=
  length (GetStrides t) = length (GetShape t).

(** The assertions of Transform(points, transformation) hold. *)
Definition matches (points transformation : Tensor) : Prop :=
  GetShape transformation = [4; 4] /\
  GetDtype transformation = GetDtype points /\
  GetDevice transformation = GetDevice points.

(** The assertions of Transform(points, normals, transformation) hold. *)
Definition matches_normals (points normals transformation : Tensor) : Prop :=
  matches points transformation /\
  GetDtype normals = GetDtype points /\
  GetDevice normals = GetDevice points.

(** From [m] to [m'] no kernel has been launched and every buffer of [m] is in
    [m'] where and as it was; [m'] may hold new buffers after them. *)
Definition untouched (m m' : Machine) : Prop :=
  launched m' = launched m /\ exists ext, heap m' = heap m ++ ext.

(** A call of one of the operations of the layer. *)
Inductive Call :=
  | CallUnproject (depth : Tensor) (image_colors : option Tensor)
      (points : Tensor) (colors : option Tensor)
      (intrinsics extrinsics : Tensor) (depth_scale depth_max : Q) (stride : Z)
  | CallProject (depth : Tensor) (image_colors : option Tensor)
      (points : Tensor) (colors : option Tensor)
      (intrinsics extrinsics : Tensor) (depth_scale depth_max : Q)
  | CallTransform (points transformation : Tensor)
  | CallTransformWithNormals (points normals transformation : Tensor)
  | CallCreateVertexMap (depth_map intrinsics vertex_map : Tensor)
      (depth_scale depth_max : Q)
  | CallCreateNormalMap (vertex_map normal_map : Tensor)
      (depth_scale depth_max depth_diff : Q).

Definition run (B : bool) (exec : KernelCall -> Heap -> Heap) (c : Call) : M unit :=
  match c with
  | CallUnproject d ic p cs i e s mx st => Unproject B exec d ic p cs i e s mx st
  | CallProject d ic p cs i e s mx => Project B exec d ic p cs i e s mx
  | CallTransform p t => (Transform B exec p t ;; ret tt)
  | CallTransformWithNormals p n t => (TransformWithNormals B exec p n t ;; ret tt)
  | CallCreateVertexMap d i v s mx => CreateVertexMap B exec d i v s mx
  | CallCreateNormalMap v n s mx dd => CreateNormalMap B exec v n s mx dd
  end.

(** The device a call dispatches on. *)
Definition dispatch_device (c : Call) : Device :=
  match c with
  | CallUnproject d _ _ _ _ _ _ _ _ => GetDevice d
  | CallProject d _ _ _ _ _ _ _ => GetDevice d
  | CallTransform p _ => GetDevice p
  | CallTransformWithNormals p _ _ => GetDevice p
  | CallCreateVertexMap d _ _ _ _ => GetDevice d
  | CallCreateNormalMap v _ _ _ _ => GetDevice v
  end.

(** The checks that a call makes before it dispatches on the device hold. *)
Definition reaches_dispatch (c : Call) (m : Machine) : Prop :=
  match c with
  | CallUnproject _ ic _ cs _ _ _ _ _ => has_value ic = has_value cs
  | CallProject _ ic _ cs _ _ _ _ => has_value ic = has_value cs
  | CallTransform p t =>
      matches p t /\ IsValidRigidTransformation (check_data m t) = true
  | CallTransformWithNormals p n t =>
      matches_normals p n t /\ IsValidRigidTransformation (check_data m t) = true
  | CallCreateVertexMap d i _ _ _ => GetDevice d = GetDevice i
  | CallCreateNormalMap _ _ _ _ _ => True
  end.

(** The error of the last branch of the dispatch of a call, and the error of
    its CUDA branch in a build without CUDA. *)
Definition unimplemented_device_error (c : Call) : Error :=
  match c with
  | CallCreateVertexMap _ _ _ _ _ | CallCreateNormalMap _ _ _ _ _ =>
      Message "Unimplemented device."
  | _ => Message "Unimplemented device"
  end.

Definition cuda_not_built_error (c : Call) : Error :=
  match c with
  | CallCreateVertexMap _ _ _ _ _ | CallCreateNormalMap _ _ _ _ _ =>
      Message "Not compiled with CUDA, but CUDA device is used."
  | _ => NotBuiltWithCUDA
  end.

(** The device of a call has no backend in the build. *)
Definition no_backend (B : bool) (c : Call) : Prop :=
  match GetType (dispatch_device c) with
  | CPU => False
  | CUDA => B = false
  | OtherDevice _ => True
  end.

Definition no_backend_error (c : Call) : Error :=
  match GetType (dispatch_device c) with
  | CUDA => cuda_not_built_error c
  | _ => unimplemented_device_error c
  end.

(** The intrinsics and extrinsics that a kernel is given. *)
Definition camera_matrices (k : KernelCall) : list Tensor :=
  match kernel_args k with
  | UnprojectArgs _ _ _ _ i e _ _ _ => [i; e]
  | ProjectArgs _ _ _ _ i e _ _ => [i; e]
  | CreateVertexMapArgs _ i _ _ _ => [i]
  | _ => []
  end.

(** A tensor in host memory with dtype Float64. *)
Definition on_host_float64 (t : Tensor) : Prop :=
  GetDevice t = host /\ GetDtype t = Float64.

(** Every kernel launched by the end of call [c] on machine [m] has been
    given intrinsics and extrinsics in host memory with dtype Float64. *)
Definition camera_matrices_normalized (B : bool) (exec : KernelCall -> Heap -> Heap)
    (c : Call) (m : Machine) : Prop :=
  Forall (fun k => Forall on_host_float64 (camera_matrices k))
         (launched (snd (run B exec c m))).

(** ** Sample data *)

(** A backend whose kernels leave the buffers alone, for the properties that
    hold whatever the kernels compute. *)
Definition idle_backend : KernelCall -> Heap -> Heap := fun _ h => h.

Definition cuda0 : Device := mkDevice CUDA 0.

(** A 2x2 depth map, a 3x3 matrix of intrinsics and a 2x2x3 vertex map, all
    dense Float32 tensors on CUDA:0, in the buffers 0, 1 and 2. *)
Definition sample_depth_map : Tensor := mkTensor [2; 2] [2; 1] Float32 cuda0 0 0.
Definition sample_intrinsics : Tensor := mkTensor [3; 3] [3; 1] Float32 cuda0 1 0.
Definition sample_vertex_map : Tensor := mkTensor [2; 2; 3] [6; 3; 1] Float32 cuda0 2 0.
Definition sample_extrinsics : Tensor := mkTensor [4; 4] [4; 1] Float32 cuda0 3 0.
Definition sample_cloud : Tensor := mkTensor [4; 3] [3; 1] Float32 cuda0 4 0.

Definition sample_machine : Machine :=
  mkMachine
    [ [1; 2; 0; 1];
      [525; 0; 1; 0; 525; 1; 0; 0; 1];
      [0; 0; 0; 0; 0; 0; 0; 0; 0; 0; 0; 0];
      [1; 0; 0; 0; 0; 1; 0; 0; 0; 0; 1; 0; 0; 0; 0; 1];
      [0; 0; 0; 0; 0; 0; 0; 0; 0; 0; 0; 0] ]%Q
    [].

(** Float64 tensors on CPU:0.  Buffer 0 holds, row by row, the rigid
    transformation that turns by a quarter about the z axis and then
    translates by (5, 0, 0), and [rigid_dense] is that matrix.  Buffer 1 holds
    the transposed matrix, and [rigid_view] is its transposed view (strides 1
    and 4): it has the entries of [rigid_dense].  Buffer 2 holds six
    coordinates; [cloud_dense] reads them as the points (1, 2, 3) and
    (4, 5, 6), and [cloud_view], the transposed view of the 3x2 matrix in the
    buffer, as the points (1, 3, 5) and (2, 4, 6).  Buffer 3 holds two unit
    normals, (1, 0, 0) and (0, 0, 1) through [normals_view].  Buffer 4 holds
    a matrix that scales x by 2, and buffer 5 the identity. *)
Definition rigid_dense : Tensor := mkTensor [4; 4] [4; 1] Float64 host 0 0.
Definition rigid_view : Tensor := mkTensor [4; 4] [1; 4] Float64 host 1 0.
Definition cloud_dense : Tensor := mkTensor [2; 3] [3; 1] Float64 host 2 0.
Definition cloud_view : Tensor := mkTensor [2; 3] [1; 2] Float64 host 2 0.
Definition normals_dense : Tensor := mkTensor [2; 3] [3; 1] Float64 host 3 0.
Definition normals_view : Tensor := mkTensor [2; 3] [1; 2] Float64 host 3 0.
Definition scaling_dense : Tensor := mkTensor [4; 4] [4; 1] Float64 host 4 0.
Definition eye_dense : Tensor := mkTensor [4; 4] [4; 1] Float64 host 5 0.

Definition host_machine : Machine :=
  mkMachine
    [ [0; -1; 0; 5;  1; 0; 0; 0;  0; 0; 1; 0;  0; 0; 0; 1];
      [0; 1; 0; 0;  -1; 0; 0; 0;  0; 0; 1; 0;  5; 0; 0; 1];
      [1; 2; 3; 4; 5; 6];
      [1; 0; 0; 0; 0; 1];
      [2; 0; 0; 0;  0; 1; 0; 0;  0; 0; 1; 0;  0; 0; 0; 1];
      [1; 0; 0; 0;  0; 1; 0; 0;  0; 0; 1; 0;  0; 0; 0; 1] ]%Q
    [].

(** A camera on CPU:0 with Float32 tensors: a 2x2 depth image of zeros in
    buffer 0, intrinsics with focal lengths 1 and principal point (0, 0) in
    buffer 1, the identity as extrinsics in buffer 2, and in buffer 3 a cloud
    of the two points (0, 0, 1) and (0, 0, 2), which both project to the
    pixel (0, 0). *)
Definition camera_depth : Tensor := mkTensor [2; 2] [2; 1] Float32 host 0 0.
Definition camera_intrinsics : Tensor := mkTensor [3; 3] [3; 1] Float32 host 1 0.
Definition camera_extrinsics : Tensor := mkTensor [4; 4] [4; 1] Float32 host 2 0.
Definition camera_cloud : Tensor := mkTensor [2; 3] [3; 1] Float32 host 3 0.

Definition camera_machine : Machine :=
  mkMachine
    [ [0; 0; 0; 0];
      [1; 0; 0;  0; 1; 0;  0; 0; 1];
      [1; 0; 0; 0;  0; 1; 0; 0;  0; 0; 1; 0;  0; 0; 0; 1];
      [0; 0; 1;  0; 0; 2] ]%Q
    [].

(** The entries of the 4x4 identity, row by row. *)
Definition eye4 : list Q :=
  [1; 0; 0; 0;  0; 1; 0; 0;  0; 0; 1; 0;  0; 0; 0; 1]%Q.

(** [t] is the 4x4 identity as Tensor::Eye makes it: dense, with the entries
    1 and 0. *)
Definition is_identity (h : Heap) (t : Tensor) : Prop :=
  GetShape t = [4; 4] /\ IsContiguous t = true /\ elements h t = eye4.

(** The buffer of [t] is one of the buffers of [m]. *)
Definition allocated (m : Machine) (t : Tensor) : Prop :=
  blob t < length (heap m).

(** Two sequences of scalars, or two heaps, hold the same numbers. *)
Definition same_numbers (a b : list Q) : Prop := Forall2 Qeq a b.
Definition same_heap (h h' : Heap) : Prop := Forall2 same_numbers h h'.

(** The build has a backend for the device. *)
Definition has_backend (B : bool) (device : Device) : Prop :=
  match GetType device with
  | CPU => True
  | CUDA => B = true
  | OtherDevice _ => False
  end.

(** ** Vocabulary of the further properties *)

(** The backend a call is routed to on a device that has one. *)
Definition backend_for (device : Device) : Backend :=
  match GetType device with
  | CUDA => OnCUDA
  | _ => OnCPU
  end.

(** The kernel arguments are those of the kernel of the operation called. *)
Definition same_operation (c : Call) (a : KernelArgs) : Prop :=
  match c, a with
  | CallUnproject _ _ _ _ _ _ _ _ _, UnprojectArgs _ _ _ _ _ _ _ _ _ => True
  | CallProject _ _ _ _ _ _ _ _, ProjectArgs _ _ _ _ _ _ _ _ => True
  | CallTransform _ _, TransformArgs _ _ => True
  | CallTransformWithNormals _ _ _, TransformNormalsArgs _ _ _ => True
  | CallCreateVertexMap _ _ _ _ _, CreateVertexMapArgs _ _ _ _ _ => True
  | CallCreateNormalMap _ _ _ _ _, CreateNormalMapArgs _ _ _ _ _ => True
  | _, _ => False
  end.

(** The fatal errors in the text of each operation. *)
Definition errors_of (c : Call) : list Error :=
  match c with
  | CallUnproject _ _ _ _ _ _ _ _ _ =>
      [ Message "[Unproject] Both or none of image_colors and colors must have values.";
        NotBuiltWithCUDA;
        Message "Unimplemented device" ]
  | CallProject _ _ _ _ _ _ _ _ =>
      [ Message "[Project] Both or none of image_colors and colors must have values.";
        NotBuiltWithCUDA;
        Message "Unimplemented device" ]
  | CallTransform _ _ | CallTransformWithNormals _ _ _ =>
      [ Assert AssertShapeFailed; Assert AssertDtypeFailed;
        Assert AssertDeviceFailed;
        Message "Invalid Transformation Matrix. Only Rigid Transformation is supported.";
        NotBuiltWithCUDA;
        Message "Unimplemented device" ]
  | CallCreateVertexMap _ _ _ _ _ =>
      [ Message "Inconsistent device between depth_map ({}) vs intrinsics ({})";
        Message "Not compiled with CUDA, but CUDA device is used.";
        Message "Unimplemented device." ]
  | CallCreateNormalMap _ _ _ _ _ =>
      [ Message "Not compiled with CUDA, but CUDA device is used.";
        Message "Unimplemented device." ]
  end.

(** [t'] is [t] itself when [t] is dense, and otherwise a dense tensor of the
    shape, dtype and device of [t] in a buffer that [m] does not have. *)
Definition dense_version_of (m : Machine) (t t' : Tensor) : Prop :=
  IsContiguous t' = true /\
  GetShape t' = GetShape t /\
  GetDtype t' = GetDtype t /\
  GetDevice t' = GetDevice t /\
  (if IsContiguous t then t' = t else length (heap m) <= blob t').

(** The computation returns a tensor of the shape of [t] and only allocates;
    when [t] is well formed and one of the buffers, so is the result, with
    the elements of [t]. *)
Definition keeps_elements (c : M Tensor) (t : Tensor) : Prop :=
  forall m, exists t' ext,
    c m = (Ok t', mkMachine (heap m ++ ext) (launched m)) /\
    GetShape t' = GetShape t /\
    (well_formed t -> allocated m t ->
     well_formed t' /\
     blob t' < length (heap m ++ ext) /\
     elements (heap m ++ ext) t' = elements (heap m) t).

(** ** Reads within the buffer *)


(** [t'] stands in for the matrix [t] of the caller: a dense Float64 tensor in
    host memory of the same shape, holding in [h'] the elements [t] has in
    [h]. *)
Definition normalized_version_of (h h' : Heap) (t t' : Tensor) : Prop :=
  on_host_float64 t' /\
  IsContiguous t' = true /\
  GetShape t' = GetShape t /\
  (well_formed t -> blob t < length h -> elements h' t' = elements h t).

(** ** More sample data *)

(** The transposed view of buffer 0 of [host_machine]: the transpose of
    [rigid_dense], whose bottom row is (5, 0, 0, 1). *)
Definition sheared_view : Tensor := mkTensor [4; 4] [1; 4] Float64 host 0 0.

(** A 4x4 identity that is a view: the first four columns of a dense 4x5
    matrix in buffer 0 (strides 5 and 1).  Buffers 1 and 2 hold two points
    and two normals. *)
Definition eye_padded : Tensor := mkTensor [4; 4] [5; 1] Float64 host 0 0.
Definition padded_cloud : Tensor := mkTensor [2; 3] [3; 1] Float64 host 1 0.
Definition padded_normals : Tensor := mkTensor [2; 3] [3; 1] Float64 host 2 0.

Definition padded_machine : Machine :=
  mkMachine
    [ [1; 0; 0; 0; 0;  0; 1; 0; 0; 0;  0; 0; 1; 0; 0;  0; 0; 0; 1; 0];
      [1; 2; 3; 4; 5; 6];
      [1; 0; 0; 0; 0; 1] ]%Q
    [].
(** * Properties *)

(** ** Scalar tests *)

Lemma Qgtb_lt (a b : Q) : Qgtb a b = true <-> (b < a)%Q.
Proof.
  unfold Qgtb. rewrite negb_true_iff, <- not_true_iff_false, Qle_bool_iff.
  split; [apply Qnot_le_lt | apply Qlt_not_le].
Qed.

Lemma Qneb_neq (a b : Q) : Qneb a b = true <-> ~ (a == b)%Q.
Proof.
  unfold Qneb. rewrite negb_true_iff, <- not_true_iff_false, Qeq_bool_iff.
  tauto.
Qed.

(** ** Running the monad *)

Create HintDb dispatch.

Lemma bind_Ok {A B} (c : M A) (k : A -> M B) m a m' :
  c m = (Ok a, m') -> bind c k m = k a m'.
Proof. unfold bind. intros ->. reflexivity. Qed.

Lemma bind_Fatal {A B} (c : M A) (k : A -> M B) m e m' :
  c m = (Fatal e, m') -> bind c k m = (Fatal e, m').
Proof. unfold bind. intros ->. reflexivity. Qed.

(** A computation that only allocates: it returns, launches nothing and
    leaves the existing buffers where and as they are. *)
Definition allocates {A} (c : M A) : Prop :=
  forall m, exists a ext, c m = (Ok a, mkMachine (heap m ++ ext) (launched m)).

Lemma allocates_ret {A} (a : A) : allocates (ret a).
Proof. intros [h l]. exists a, []. unfold ret. simpl. by rewrite app_nil_r. Qed.

Lemma allocates_bind {A B} (c : M A) (k : A -> M B) :
  allocates c -> (forall a, allocates (k a)) -> allocates (bind c k).
Proof.
  intros Hc Hk m. destruct (Hc m) as (a & ext & Ha).
  destruct (Hk a (mkMachine (heap m ++ ext) (launched m))) as (b & ext' & Hb).
  exists b, (ext ++ ext'). rewrite (bind_Ok _ _ _ _ _ Ha), Hb. simpl.
  by rewrite app_assoc.
Qed.

Lemma allocates_dense_copy t dt dev : allocates (dense_copy t dt dev).
Proof.
  intros m. eexists _, [_]. unfold dense_copy, bind, get_heap, alloc, ret.
  simpl. reflexivity.
Qed.

Lemma allocates_Contiguous t : allocates (Contiguous t).
Proof.
  unfold Contiguous. destruct (IsContiguous t);
    [apply allocates_ret | apply allocates_dense_copy].
Qed.

Lemma allocates_To t dev dt : allocates (To t dev dt).
Proof.
  unfold To. apply allocates_bind.
  - unfold ToDtype. case_decide; [apply allocates_ret | apply allocates_dense_copy].
  - intros t'. unfold ToDevice.
    case_decide; [apply allocates_ret | apply allocates_dense_copy].
Qed.

#[global] Hint Resolve allocates_ret allocates_bind allocates_dense_copy
  allocates_Contiguous allocates_To : dispatch.

(** Stepping over a computation that only allocates. *)
Lemma bind_allocates {A B} (c : M A) (k : A -> M B) m :
  allocates c ->
  exists a ext, bind c k m = k a (mkMachine (heap m ++ ext) (launched m)).
Proof.
  intros Hc. destruct (Hc m) as (a & ext & Ha). exists a, ext.
  by apply bind_Ok.
Qed.

Ltac step_alloc :=
  match goal with
  | |- context [bind ?c ?k ?m] =>
      let a := fresh "a" in
      let ext := fresh "ext" in
      destruct (bind_allocates c k m) as (a & ext & ->);
      [eauto with dispatch|]
  end.

Lemma eqb_false_ne (a b : bool) : a <> b -> eqb a b = false.
Proof. by destruct a, b. Qed.

Lemma eqb_true_eq (a b : bool) : a = b -> eqb a b = true.
Proof. intros ->. by destruct b. Qed.

(** ** Paired optional arguments *)

(** C6.  In Unproject and in Project, when exactly one of image_colors and
    colors is present the call ends in the fatal pairing error on the machine
    it started on: nothing has been allocated and no kernel launched.  When
    both or none are present, the call does not end in the pairing error. *)
Theorem pairing_mismatch_is_fatal B exec depth image_colors points colors
    intrinsics extrinsics depth_scale depth_max stride m :
  (has_value image_colors <> has_value colors ->
   Unproject B exec depth image_colors points colors intrinsics extrinsics
             depth_scale depth_max stride m
   = (Fatal (Message "[Unproject] Both or none of image_colors and colors must have values."), m) /\
   Project B exec depth image_colors points colors intrinsics extrinsics
           depth_scale depth_max m
   = (Fatal (Message "[Project] Both or none of image_colors and colors must have values."), m)) /\
  (has_value image_colors = has_value colors ->
   fst (Unproject B exec depth image_colors points colors intrinsics extrinsics
                  depth_scale depth_max stride m)
   <> Fatal (Message "[Unproject] Both or none of image_colors and colors must have values.") /\
   fst (Project B exec depth image_colors points colors intrinsics extrinsics
                depth_scale depth_max m)
   <> Fatal (Message "[Project] Both or none of image_colors and colors must have values.")).
Proof.
  split; intros Hp.
  - unfold Unproject, Project. rewrite (eqb_false_ne _ _ Hp). simpl. done.
  - unfold Unproject, Project. rewrite (eqb_true_eq _ _ Hp). simpl.
    split.
    + rewrite (bind_Ok _ _ m tt m) by done. step_alloc.
      step_alloc.
      unfold CUDA_CALL, launch, LogError, throw.
      destruct (GetType (GetDevice depth)), B; simpl; discriminate.
    + rewrite (bind_Ok _ _ m tt m) by done.
      unfold CUDA_CALL, launch, LogError, throw.
      destruct (GetType (GetDevice depth)), B; simpl; discriminate.
Qed.

(** ** The assertions of Transform *)

Lemma AssertShape_run t shape m :
  AssertShape t shape m
  = if decide (GetShape t = shape) then (Ok tt, m)
    else (Fatal (Assert AssertShapeFailed), m).
Proof. unfold AssertShape. by case_decide. Qed.

Lemma AssertDtype_run t dtype m :
  AssertDtype t dtype m
  = if decide (GetDtype t = dtype) then (Ok tt, m)
    else (Fatal (Assert AssertDtypeFailed), m).
Proof. unfold AssertDtype. by case_decide. Qed.

Lemma AssertDevice_run t device m :
  AssertDevice t device m
  = if decide (GetDevice t = device) then (Ok tt, m)
    else (Fatal (Assert AssertDeviceFailed), m).
Proof. unfold AssertDevice. by case_decide. Qed.

(** The rigid-transform test returns or throws according to the data it
    reads; all it leaves behind is the host copy of the matrix, if one was
    made. *)
Lemma check_transformation_run transformation m :
  exists ext,
    check_transformation transformation m
    = (if IsValidRigidTransformation (check_data m transformation)
       then Ok tt
       else Fatal (Message "Invalid Transformation Matrix. Only Rigid Transformation is supported."),
       mkMachine (heap m ++ ext) (launched m)).
Proof.
  unfold check_transformation, check_data.
  destruct (allocates_To transformation host Float64 m) as (t & ext & Ht).
  exists ext. rewrite (bind_Ok _ _ _ _ _ Ht), Ht.
  unfold bind, get_heap. simpl.
  by destruct (IsValidRigidTransformation _).
Qed.

(** What Transform does once its assertions hold. *)
Lemma Transform_after_asserts B exec points transformation m :
  matches points transformation ->
  Transform B exec points transformation m
  = (check_transformation transformation ;;
     points_contiguous <- Contiguous points ;;
     transformation_contiguous <- Contiguous transformation ;;
     match GetType (GetDevice points) with
     | CPU => launch exec (TransformCPU points transformation)
     | CUDA => CUDA_CALL B exec (TransformCUDA points transformation)
     | _ => LogError "Unimplemented device"
     end ;;
     ret points_contiguous) m.
Proof.
  intros (Hs & Hd & Hv). unfold Transform.
  unfold bind at 1. rewrite AssertShape_run, decide_True by done.
  unfold bind at 1. rewrite AssertDtype_run, decide_True by done.
  unfold bind at 1. rewrite AssertDevice_run, decide_True by done.
  reflexivity.
Qed.

Lemma TransformWithNormals_after_asserts B exec points normals transformation m :
  matches_normals points normals transformation ->
  TransformWithNormals B exec points normals transformation m
  = (check_transformation transformation ;;
     points_contiguous <- Contiguous points ;;
     normals_contiguous <- Contiguous normals ;;
     transformation_contiguous <- Contiguous transformation ;;
     match GetType (GetDevice points) with
     | CPU => launch exec (TransformNormalsCPU points normals transformation_contiguous)
     | CUDA => CUDA_CALL B exec (TransformNormalsCUDA points normals
                                                      transformation_contiguous)
     | _ => LogError "Unimplemented device"
     end ;;
     ret (points_contiguous, normals_contiguous)) m.
Proof.
  intros ((Hs & Hd & Hv) & Hnd & Hnv). unfold TransformWithNormals.
  unfold bind at 1. rewrite AssertShape_run, decide_True by done.
  unfold bind at 1. rewrite AssertDtype_run, decide_True by done.
  unfold bind at 1. rewrite AssertDtype_run, decide_True by done.
  unfold bind at 1. rewrite AssertDevice_run, decide_True by done.
  unfold bind at 1. rewrite AssertDevice_run, decide_True by done.
  reflexivity.
Qed.

Lemma Transform_asserts_fail B exec points transformation m :
  ~ matches points transformation ->
  exists a, Transform B exec points transformation m = (Fatal (Assert a), m).
Proof.
  intros Hn. unfold Transform.
  unfold bind at 1. rewrite AssertShape_run. case_decide; [|by eexists].
  unfold bind at 1. rewrite AssertDtype_run. case_decide; [|by eexists].
  unfold bind at 1. rewrite AssertDevice_run. case_decide; [|by eexists].
  destruct Hn. by repeat split.
Qed.

Lemma TransformWithNormals_asserts_fail B exec points normals transformation m :
  ~ matches_normals points normals transformation ->
  exists a, TransformWithNormals B exec points normals transformation m
            = (Fatal (Assert a), m).
Proof.
  intros Hn. unfold TransformWithNormals.
  unfold bind at 1. rewrite AssertShape_run. case_decide; [|by eexists].
  unfold bind at 1. rewrite AssertDtype_run. case_decide; [|by eexists].
  unfold bind at 1. rewrite AssertDtype_run. case_decide; [|by eexists].
  unfold bind at 1. rewrite AssertDevice_run. case_decide; [|by eexists].
  unfold bind at 1. rewrite AssertDevice_run. case_decide; [|by eexists].
  destruct Hn. by repeat split.
Qed.

#[global] Instance matches_dec p t : Decision (matches p t).
Proof. unfold matches. apply _. Defined.

#[global] Instance matches_normals_dec p n t : Decision (matches_normals p n t).
Proof. unfold matches_normals. apply _. Defined.

(** C8.  Transform asserts that the transformation has shape 4x4 and the dtype
    and device of the points, and that the normals, when given, have the dtype
    and device of the points.  When one of these fails, the call ends in the
    fatal error of an assertion on the machine it started on: no tensor has
    been converted or moved.  When all hold, no assertion fails. *)
Theorem Transform_mismatch_is_fatal B exec points normals transformation m :
  (~ matches points transformation ->
   exists a, Transform B exec points transformation m = (Fatal (Assert a), m)) /\
  (~ matches_normals points normals transformation ->
   exists a, TransformWithNormals B exec points normals transformation m
             = (Fatal (Assert a), m)) /\
  (matches points transformation ->
   forall a, fst (Transform B exec points transformation m) <> Fatal (Assert a)) /\
  (matches_normals points normals transformation ->
   forall a, fst (TransformWithNormals B exec points normals transformation m)
             <> Fatal (Assert a)).
Proof.
  repeat split.
  - apply Transform_asserts_fail.
  - apply TransformWithNormals_asserts_fail.
  - intros Hm a. rewrite Transform_after_asserts by done.
    destruct (check_transformation_run transformation m) as (ext & Hc).
    unfold bind at 1. rewrite Hc.
    destruct (IsValidRigidTransformation _); simpl; [|discriminate].
    do 2 step_alloc. unfold CUDA_CALL, launch, LogError, throw, bind, ret.
    destruct (GetType (GetDevice points)), B; simpl; discriminate.
  - intros Hm a. rewrite TransformWithNormals_after_asserts by done.
    destruct (check_transformation_run transformation m) as (ext & Hc).
    unfold bind at 1. rewrite Hc.
    destruct (IsValidRigidTransformation _); simpl; [|discriminate].
    do 3 step_alloc. unfold CUDA_CALL, launch, LogError, throw, bind, ret.
    destruct (GetType (GetDevice points)), B; simpl; discriminate.
Qed.

(** ** The rigid-transform test *)

Lemma buffer_app h ext t :
  blob t < length h -> buffer (h ++ ext) t = buffer h t.
Proof. intros Hb. unfold buffer, Heap in *. by rewrite lookup_app_l. Qed.

Lemma elements_app h ext t :
  blob t < length h -> elements (h ++ ext) t = elements h t.
Proof. intros Hb. unfold elements. by rewrite buffer_app. Qed.

(** Buffers that were there keep their elements. *)
Lemma untouched_elements m m' t :
  untouched m m' -> blob t < length (heap m) ->
  elements (heap m') t = elements (heap m) t.
Proof. intros (_ & ext & ->) Hb. by apply elements_app. Qed.

Lemma IsValidRigidTransformation_false ptr :
  IsValidRigidTransformation ptr = false <->
  Exists (fun i => (1 < load ptr i)%Q) rotation_block \/
  Exists (fun i => ~ (load ptr i == 0)%Q) bottom_row.
Proof.
  unfold IsValidRigidTransformation, rotation_block, bottom_row.
  rewrite !Exists_cons, !Exists_nil, <- !Qgtb_lt, <- !Qneb_neq.
  destruct (Qgtb (load ptr 0) 1), (Qgtb (load ptr 1) 1), (Qgtb (load ptr 2) 1),
    (Qgtb (load ptr 4) 1), (Qgtb (load ptr 5) 1), (Qgtb (load ptr 6) 1),
    (Qgtb (load ptr 8) 1), (Qgtb (load ptr 9) 1), (Qgtb (load ptr 10) 1),
    (Qneb (load ptr 12) 0), (Qneb (load ptr 13) 0), (Qneb (load ptr 14) 0);
    simpl; intuition congruence.
Qed.

(** C2.  When the data that the rigid-transform test reads fails the test,
    either overload of Transform ends in a fatal error, no kernel has been
    launched and every buffer that existed before the call (those of the
    points and of the normals among them) is where and as it was.  When the
    assertions hold, the error is the one of the invalid transformation. *)
Theorem invalid_transformation_no_mutation B exec points normals transformation m :
  IsValidRigidTransformation (check_data m transformation) = false ->
  (exists e m',
      Transform B exec points transformation m = (Fatal e, m') /\
      untouched m m' /\
      (matches points transformation ->
       e = Message "Invalid Transformation Matrix. Only Rigid Transformation is supported.")) /\
  (exists e m',
      TransformWithNormals B exec points normals transformation m = (Fatal e, m') /\
      untouched m m' /\
      (matches_normals points normals transformation ->
       e = Message "Invalid Transformation Matrix. Only Rigid Transformation is supported.")).
Proof.
  intros Hbad.
  destruct (check_transformation_run transformation m) as (ext & Hc).
  rewrite Hbad in Hc.
  assert (Hsame : untouched m m).
  { split; [done|]. exists []. by rewrite app_nil_r. }
  split.
  - destruct (decide (matches points transformation)) as [Hm|Hm].
    + rewrite Transform_after_asserts by done.
      rewrite (bind_Fatal _ _ _ _ _ Hc).
      eexists _, _. split; [done|]. split; [|done]. split; [done|by exists ext].
    + destruct (Transform_asserts_fail B exec _ _ m Hm) as (a & ->).
      eexists _, _. split; [done|]. split; [done|tauto].
  - destruct (decide (matches_normals points normals transformation)) as [Hm|Hm].
    + rewrite TransformWithNormals_after_asserts by done.
      rewrite (bind_Fatal _ _ _ _ _ Hc).
      eexists _, _. split; [done|]. split; [|done]. split; [done|by exists ext].
    + destruct (TransformWithNormals_asserts_fail B exec _ _ _ m Hm) as (a & ->).
      eexists _, _. split; [done|]. split; [done|tauto].
Qed.

Lemma load_drop ptr n i : load (drop n ptr) i = load ptr (n + i).
Proof. unfold load. by rewrite !nth_lookup, lookup_drop. Qed.

(** In a dense 4x4 matrix the entry at flat position [i] of the row-major
    order is the [i]-th scalar behind the data pointer. *)
Lemma load_dense_4x4 (f : nat -> Q) base i :
  i < 16 ->
  load (map f (element_offsets [4; 4] (DefaultStrides [4; 4]) base)) i
  = f (base + i).
Proof.
  intros Hi. unfold load. simpl.
  do 16 (destruct i as [|i]; [simpl; f_equal; lia|]). lia.
Qed.

Lemma dense_copy_run t dtype device m :
  dense_copy t dtype device m
  = (Ok (mkTensor (GetShape t) (DefaultStrides (GetShape t)) dtype device
                  (length (heap m)) 0),
     mkMachine (heap m ++ [elements (heap m) t]) (launched m)).
Proof. reflexivity. Qed.

Lemma buffer_fresh h data t :
  blob t = length h -> buffer (h ++ [data]) t = data.
Proof.
  intros Hb. unfold buffer, Heap in *.
  rewrite lookup_app_r by lia. rewrite Hb, Nat.sub_diag. reflexivity.
Qed.

Lemma check_data_row_major m t :
  GetShape t = [4; 4] ->
  IsContiguous t = true \/ GetDtype t <> Float64 \/ GetDevice t <> host ->
  forall i, i < 16 -> load (check_data m t) i = load (elements (heap m) t) i.
Proof.
  intros Hs Hcase i Hi. unfold check_data, To, ToDtype, ToDevice.
  destruct (decide (GetDtype t = Float64)) as [Hd|Hd].
  - rewrite (bind_Ok _ _ m t m) by done.
    destruct (decide (GetDevice t = host)) as [Hv|Hv].
    + destruct Hcase as [Hc|[?|?]]; [|done..].
      unfold ret, GetDataPtr, elements.
      apply bool_decide_eq_true in Hc. rewrite Hc, Hs.
      by rewrite load_drop, load_dense_4x4.
    + rewrite dense_copy_run. unfold GetDataPtr. simpl.
      by rewrite buffer_fresh.
  - rewrite (bind_Ok _ _ _ _ _ (dense_copy_run _ _ _ _)). simpl.
    destruct (decide (GetDevice t = host)) as [Hv|Hv].
    + unfold ret, GetDataPtr. simpl. by rewrite buffer_fresh.
    + rewrite dense_copy_run. unfold GetDataPtr. simpl.
      rewrite buffer_fresh by (simpl; rewrite length_app; simpl; lia).
      unfold elements at 1. simpl GetShape. simpl GetStrides. simpl offset.
      rewrite drop_0, Hs, load_dense_4x4 by done.
      by rewrite buffer_fresh.
Qed.

(** ** Devices without a backend *)

Lemma untouched_refl m : untouched m m.
Proof. split; [done|]. exists []. by rewrite app_nil_r. Qed.

Ltac solve_untouched :=
  first [ apply untouched_refl
        | split; [reflexivity|];
          simpl; rewrite <- ?app_assoc; eexists; reflexivity ].

(** C9.  When the device a call dispatches on is neither CPU nor CUDA, or is
    CUDA in a build without the CUDA backend, the call ends in a fatal error
    and no kernel has been launched, the CPU kernels included.  When the
    earlier checks of the call hold, the error is, for a device that is
    neither, "Unimplemented device" (with a final dot in CreateVertexMap and
    CreateNormalMap), and for CUDA without the backend the error of CUDA_CALL
    (in CreateVertexMap and CreateNormalMap, "Not compiled with CUDA, but CUDA
    device is used."). *)
Theorem no_backend_is_fatal B exec c m :
  no_backend B c ->
  exists e m',
    run B exec c m = (Fatal e, m') /\
    untouched m m' /\
    (reaches_dispatch c m -> e = no_backend_error c).
Proof.
  unfold no_backend, no_backend_error.
  destruct c as [d ic p cs i e s mx st | d ic p cs i e s mx | p t | p n t
                 | d i v s mx | v n s mx dd]; simpl; intros Hdev.
  - unfold Unproject.
    destruct (eqb (has_value ic) (has_value cs)) eqn:Hp; simpl.
    + rewrite (bind_Ok _ _ m tt m) by done. do 2 step_alloc.
      unfold CUDA_CALL, LogError, throw.
      destruct (GetType (GetDevice d)); [done|subst B|];
        eexists _, _; (split; [done|]); (split; [solve_untouched|done]).
    + eexists _, _. split; [done|]. split; [solve_untouched|].
      intros Heq. apply eqb_true_eq in Heq. congruence.
  - unfold Project.
    destruct (eqb (has_value ic) (has_value cs)) eqn:Hp; simpl.
    + rewrite (bind_Ok _ _ m tt m) by done.
      unfold CUDA_CALL, LogError, throw.
      destruct (GetType (GetDevice d)); [done|subst B|];
        eexists _, _; (split; [done|]); (split; [solve_untouched|done]).
    + eexists _, _. split; [done|]. split; [solve_untouched|].
      intros Heq. apply eqb_true_eq in Heq. congruence.
  - destruct (decide (matches p t)) as [Hm|Hm].
    + unfold bind at 1. rewrite Transform_after_asserts by done.
      destruct (check_transformation_run t m) as (ext & Hc).
      unfold bind at 1. rewrite Hc.
      destruct (IsValidRigidTransformation (check_data m t)).
      * do 2 step_alloc. unfold CUDA_CALL, LogError, throw, bind.
        destruct (GetType (GetDevice p)); [done|subst B|];
          eexists _, _; (split; [done|]); (split; [solve_untouched|done]).
      * eexists _, _. split; [done|]. split; [solve_untouched|].
        intros [_ ?]. discriminate.
    + destruct (Transform_asserts_fail B exec _ _ m Hm) as (a & Ha).
      rewrite (bind_Fatal _ _ _ _ _ Ha).
      eexists _, _. split; [done|]. split; [solve_untouched|tauto].
  - destruct (decide (matches_normals p n t)) as [Hm|Hm].
    + unfold bind at 1. rewrite TransformWithNormals_after_asserts by done.
      destruct (check_transformation_run t m) as (ext & Hc).
      unfold bind at 1. rewrite Hc.
      destruct (IsValidRigidTransformation (check_data m t)).
      * do 3 step_alloc. unfold CUDA_CALL, LogError, throw, bind.
        destruct (GetType (GetDevice p)); [done|subst B|];
          eexists _, _; (split; [done|]); (split; [solve_untouched|done]).
      * eexists _, _. split; [done|]. split; [solve_untouched|].
        intros [_ ?]. discriminate.
    + destruct (TransformWithNormals_asserts_fail B exec _ _ _ m Hm) as (a & Ha).
      rewrite (bind_Fatal _ _ _ _ _ Ha).
      eexists _, _. split; [done|]. split; [solve_untouched|tauto].
  - unfold CreateVertexMap.
    destruct (bool_decide (GetDevice d = GetDevice i)) eqn:Hp; simpl.
    + rewrite (bind_Ok _ _ m tt m) by done. unfold LogError.
      destruct (GetType (GetDevice d)); [done|subst B|];
        eexists _, _; (split; [done|]); (split; [solve_untouched|done]).
    + eexists _, _. split; [done|]. split; [solve_untouched|].
      intros Heq. apply bool_decide_eq_false in Hp. done.
  - unfold CreateNormalMap, LogError.
    destruct (GetType (GetDevice v)); [done|subst B|];
      eexists _, _; (split; [done|]); (split; [solve_untouched|done]).
Qed.

(** ** Intrinsics and extrinsics *)

Lemma ToDtype_result t dtype m t' m' :
  ToDtype t dtype m = (Ok t', m') ->
  GetDtype t' = dtype /\ GetDevice t' = GetDevice t.
Proof.
  unfold ToDtype. case_decide.
  - intros [= <- <-]. done.
  - rewrite dense_copy_run. intros [= <- <-]. done.
Qed.

Lemma ToDevice_result t device m t' m' :
  ToDevice t device m = (Ok t', m') ->
  GetDtype t' = GetDtype t /\ GetDevice t' = device.
Proof.
  unfold ToDevice. case_decide.
  - intros [= <- <-]. done.
  - rewrite dense_copy_run. intros [= <- <-]. done.
Qed.

Lemma To_result t device dtype m t' m' :
  To t device dtype m = (Ok t', m') ->
  GetDtype t' = dtype /\ GetDevice t' = device.
Proof.
  unfold To, bind. destruct (ToDtype t dtype m) as [[t1|e] m1] eqn:H1; [|done].
  intros H2. apply ToDtype_result in H1 as [Hd _].
  apply ToDevice_result in H2 as [Hd' Hv]. split; congruence.
Qed.

Lemma Contiguous_result t m t' m' :
  Contiguous t m = (Ok t', m') ->
  GetDtype t' = GetDtype t /\ GetDevice t' = GetDevice t /\
  IsContiguous t' = true.
Proof.
  unfold Contiguous. destruct (IsContiguous t) eqn:Hc.
  - intros [= <- <-]. done.
  - rewrite dense_copy_run. intros [= <- <-]. repeat split.
    unfold IsContiguous. simpl. by apply bool_decide_eq_true.
Qed.

(** What Unproject gives its kernel in place of a matrix of the caller. *)
Lemma normalized_matrix t m t' m' :
  (t1 <- To t host Float64 ;; Contiguous t1) m = (Ok t', m') ->
  on_host_float64 t' /\ IsContiguous t' = true.
Proof.
  unfold bind. destruct (To t host Float64 m) as [[t1|e] m1] eqn:H1; [|done].
  intros H2. apply To_result in H1 as [Hd Hv].
  apply Contiguous_result in H2 as (Hd' & Hv' & Hc).
  repeat split; congruence.
Qed.

Lemma normalize_run t m :
  exists t' ext,
    (t1 <- To t host Float64 ;; Contiguous t1) m
    = (Ok t', mkMachine (heap m ++ ext) (launched m)) /\
    on_host_float64 t' /\ IsContiguous t' = true.
Proof.
  destruct (allocates_bind (To t host Float64) Contiguous
              (allocates_To _ _ _) allocates_Contiguous m) as (t' & ext & Hr).
  exists t', ext. split; [done|]. by eapply normalized_matrix.
Qed.

(** ** The layout of the arguments of Transform *)

(** C10, on a failing input.  [rigid_view] and [rigid_dense] have the same
    entries, those of a rigid transformation, the same dtype and the same
    device.  Transform accepts [rigid_dense] and rejects [rigid_view]: the
    test reads the buffer of the view in buffer order, where position 12 holds
    the entry 5 of the translation. *)
Theorem rigid_test_depends_on_layout :
  elements (heap host_machine) rigid_view
  = elements (heap host_machine) rigid_dense /\
  GetDtype rigid_view = GetDtype rigid_dense /\
  GetDevice rigid_view = GetDevice rigid_dense /\
  fst (Transform true reference_backend cloud_dense rigid_dense host_machine)
  = Ok cloud_dense /\
  fst (Transform true reference_backend cloud_dense rigid_view host_machine)
  = Fatal (Message "Invalid Transformation Matrix. Only Rigid Transformation is supported.").
Proof. repeat split; vm_compute; reflexivity. Qed.

(** C3, on a failing input.  Transform of the strided [cloud_view] by
    [rigid_dense] passes the test and returns; on return the caller's points
    are a dense tensor in a new buffer that holds the points as they were
    before the call, (1, 3, 5) and (2, 4, 6), not their images (2, 1, 5) and
    (1, 2, 6).  In the overload with normals the points and the normals come
    back as they were as well: the normals (1, 0, 0) and (0, 0, 1), not
    (0, 1, 0) and (0, 0, 1). *)
Theorem strided_points_come_back_untransformed :
  (exists p' m',
      Transform true reference_backend cloud_view rigid_dense host_machine
      = (Ok p', m') /\
      IsContiguous p' = true /\ blob p' <> blob cloud_view /\
      elements (heap m') p' = [1; 3; 5; 2; 4; 6]%Q /\
      elements (heap host_machine) cloud_view = [1; 3; 5; 2; 4; 6]%Q /\
      map_rows (transform_point (elements (heap host_machine) rigid_dense)) 2
               (elements (heap host_machine) cloud_view)
      = [2; 1; 5; 1; 2; 6]%Q) /\
  (exists p' n' m',
      TransformWithNormals true reference_backend cloud_view normals_view
                           rigid_dense host_machine
      = (Ok (p', n'), m') /\
      elements (heap m') p' = elements (heap host_machine) cloud_view /\
      elements (heap m') n' = [1; 0; 0; 0; 0; 1]%Q /\
      elements (heap host_machine) normals_view = [1; 0; 0; 0; 0; 1]%Q /\
      map_rows (rotate_normal (elements (heap host_machine) rigid_dense)) 2
               (elements (heap host_machine) normals_view)
      = [0; 1; 0; 0; 0; 1]%Q).
Proof.
  split.
  - eexists _, _. split; [vm_compute; reflexivity|].
    repeat split; try (vm_compute; reflexivity). vm_compute. lia.
  - eexists _, _, _. split; [vm_compute; reflexivity|].
    repeat split; vm_compute; reflexivity.
Qed.

(** ** Dense layouts *)

Lemma flat_map_seq_blocks base P n k :
  flat_map (fun i => seq (base + i * P) P) (seq k n) = seq (base + k * P) (n * P).
Proof.
  revert k. induction n as [|n IH]; intros k; [done|].
  simpl. rewrite IH. rewrite seq_app. do 2 f_equal. lia.
Qed.

(** The elements of a dense view are laid out one after the other. *)
Lemma element_offsets_dense shape base :
  element_offsets shape (DefaultStrides shape) base = seq base (NumElements shape).
Proof.
  revert base. induction shape as [|n shape IH]; intros base; [done|].
  simpl. erewrite flat_map_ext; [|intros i; apply IH].
  fold (NumElements shape). rewrite flat_map_seq_blocks. f_equal. lia.
Qed.

Lemma length_flat_map_const {A B} (f : A -> list B) (l : list A) c :
  (forall x, length (f x) = c) -> length (flat_map f l) = length l * c.
Proof.
  intros Hf. induction l as [|x l IH]; [done|].
  simpl. rewrite length_app, Hf, IH. done.
Qed.

Lemma length_element_offsets shape strides base :
  length strides = length shape ->
  length (element_offsets shape strides base) = NumElements shape.
Proof.
  revert strides base. induction shape as [|n shape IH]; intros [|s strides] base;
    simpl; try done.
  intros [= Hl]. rewrite (length_flat_map_const _ _ (NumElements shape)).
  - by rewrite length_seq.
  - intros i. by apply IH.
Qed.

Lemma length_elements h t :
  well_formed t -> length (elements h t) = NumElements (GetShape t).
Proof. intros Hw. unfold elements. rewrite length_map. by apply length_element_offsets. Qed.

Lemma map_load_seq (l : list Q) : map (load l) (seq 0 (length l)) = l.
Proof.
  apply list_eq. intros i. rewrite list_lookup_fmap.
  destruct (decide (i < length l)) as [Hi|Hi].
  - rewrite lookup_seq_lt by done. simpl. unfold load.
    destruct (lookup_lt_is_Some_2 l i Hi) as [x Hx].
    rewrite Hx. f_equal. by apply nth_lookup_Some.
  - rewrite lookup_seq_ge by lia. simpl. symmetry. apply lookup_ge_None. lia.
Qed.

(** A dense copy has the elements of its original. *)
Lemma elements_dense_copy h t dtype device :
  well_formed t ->
  elements (h ++ [elements h t])
           (mkTensor (GetShape t) (DefaultStrides (GetShape t)) dtype device
                     (length h) 0)
  = elements h t.
Proof.
  intros Hw. unfold elements at 1. simpl.
  rewrite buffer_fresh by done.
  rewrite element_offsets_dense, <- (length_elements h t Hw).
  apply map_load_seq.
Qed.

(** Tensor::Contiguous returns a dense tensor with the elements of its
    argument: the argument itself when it is dense, else a copy in a new
    buffer. *)
Lemma Contiguous_run t m :
  well_formed t ->
  exists t' ext,
    Contiguous t m = (Ok t', mkMachine (heap m ++ ext) (launched m)) /\
    IsContiguous t' = true /\
    elements (heap m ++ ext) t' = elements (heap m) t /\
    (if IsContiguous t then t' = t /\ ext = []
     else blob t' = length (heap m) /\ ext = [elements (heap m) t]).
Proof.
  intros Hw. unfold Contiguous. destruct (IsContiguous t) eqn:Hc.
  - exists t, []. rewrite app_nil_r. destruct m; done.
  - eexists _, _. rewrite dense_copy_run. split; [reflexivity|].
    split; [by apply bool_decide_eq_true|].
    split; [by apply elements_dense_copy|done].
Qed.

(** ** The identity transformation *)

#[global] Instance same_numbers_equiv : Equivalence same_numbers.
Proof.
  unfold same_numbers. split.
  - intros l. apply Forall_Forall2_diag, Forall_forall. intros; reflexivity.
  - intros a b H. induction H; constructor; [by symmetry|done].
  - intros a b c H. revert c. induction H as [|x y a b Hxy _ IH]; intros c Hc;
      inversion Hc; subst; constructor; [by etransitivity|by apply IH].
Qed.

#[global] Instance same_heap_equiv : Equivalence same_heap.
Proof.
  unfold same_heap. split.
  - intros l. apply Forall_Forall2_diag, Forall_forall. intros; reflexivity.
  - intros a b H. induction H; constructor; [by symmetry|done].
  - intros a b c H. revert c. induction H as [|x y a b Hxy _ IH]; intros c Hc;
      inversion Hc; subst; constructor; [by etransitivity|by apply IH].
Qed.

Lemma load_same a b i : same_numbers a b -> (load a i == load b i)%Q.
Proof.
  unfold load, same_numbers. intros H. revert i.
  induction H as [|x y a b Hxy _ IH]; intros [|i]; simpl; try reflexivity; auto.
Qed.

Lemma buffer_same h h' t : same_heap h h' -> same_numbers (buffer h t) (buffer h' t).
Proof.
  intros H. unfold buffer, same_heap, Heap in *.
  destruct (h !! blob t) as [a|] eqn:Ha.
  - destruct (Forall2_lookup_l _ _ _ _ _ H Ha) as (b & Hb & Hab).
    by rewrite Hb.
  - assert (h' !! blob t = None) as ->; [|reflexivity].
    apply lookup_ge_None. apply lookup_ge_None in Ha.
    by rewrite <- (Forall2_length _ _ _ H).
Qed.

Lemma elements_same h h' t :
  same_heap h h' -> same_numbers (elements h t) (elements h' t).
Proof.
  intros H. unfold elements, same_numbers.
  apply Forall2_fmap, Forall_Forall2_diag, Forall_forall.
  intros i _. apply load_same, buffer_same, H.
Qed.

(** Rows that a map fixes, up to the value of the numbers, stay. *)
Lemma map_rows_fixes f n ptr :
  (forall x y z, (fst (fst (f x y z)) == x /\ snd (fst (f x y z)) == y /\
                  snd (f x y z) == z)%Q) ->
  same_numbers (map_rows f n ptr) ptr.
Proof.
  intros Hf. revert ptr. induction n as [|n IH]; intros ptr.
  - destruct ptr; reflexivity.
  - destruct ptr as [|x [|y [|z rest]]]; try reflexivity.
    simpl. specialize (Hf x y z). destruct (f x y z) as [[a b] c].
    simpl in Hf. destruct Hf as (Ha & Hb & Hc).
    repeat (constructor; [assumption|]). apply IH.
Qed.

Lemma store_same h t data :
  same_numbers data (GetDataPtr h t) -> same_heap (store h t data) h.
Proof.
  intros Hd. unfold store, same_heap, Heap in *.
  apply Forall2_same_length_lookup_2; [by rewrite length_insert|].
  intros i a b Ha Hb.
  destruct (decide (i = blob t)) as [->|Hne].
  - rewrite list_lookup_insert_eq in Ha by (by eapply lookup_lt_Some).
    injection Ha as <-. unfold GetDataPtr, buffer, Heap in *.
    rewrite Hb in *. simpl in *.
    rewrite <- (take_drop (offset t) b) at 2.
    apply Forall2_app; [reflexivity|done].
  - rewrite list_lookup_insert_ne in Ha by done.
    rewrite Ha in Hb. injection Hb as <-. reflexivity.
Qed.

(** The data pointer of a dense 4x4 identity leads to its entries. *)
Lemma identity_data h t i :
  is_identity h t -> i < 16 -> load (GetDataPtr h t) i = load eye4 i.
Proof.
  intros (Hs & Hc & He) Hi. unfold GetDataPtr. rewrite load_drop, <- He.
  unfold elements. apply bool_decide_eq_true in Hc. rewrite Hc, Hs.
  by rewrite load_dense_4x4.
Qed.

Lemma transform_point_identity T x y z :
  (forall i, i < 16 -> load T i = load eye4 i) ->
  (fst (fst (transform_point T x y z)) == x /\
   snd (fst (transform_point T x y z)) == y /\
   snd (transform_point T x y z) == z)%Q.
Proof.
  intros HT. unfold transform_point. rewrite !HT by lia. simpl.
  unfold load; simpl. repeat split; ring.
Qed.

Lemma rotate_normal_identity T x y z :
  (forall i, i < 16 -> load T i = load eye4 i) ->
  (fst (fst (rotate_normal T x y z)) == x /\
   snd (fst (rotate_normal T x y z)) == y /\
   snd (rotate_normal T x y z) == z)%Q.
Proof.
  intros HT. unfold rotate_normal. rewrite !HT by lia. simpl.
  unfold load; simpl. repeat split; ring.
Qed.

Lemma TransformPointsKernel_identity p t h :
  is_identity h t -> same_heap (TransformPointsKernel p t h) h.
Proof.
  intros Ht. unfold TransformPointsKernel. apply store_same, map_rows_fixes.
  intros x y z. apply transform_point_identity. intros i. by apply identity_data.
Qed.

Lemma TransformNormalsKernel_identity p n t h :
  is_identity h t -> same_heap (TransformNormalsKernel p n t h) h.
Proof.
  intros Ht. unfold TransformNormalsKernel. cbv zeta.
  etransitivity.
  - apply store_same, map_rows_fixes.
    intros x y z. apply rotate_normal_identity. intros i. by apply identity_data.
  - apply store_same, map_rows_fixes.
    intros x y z. apply transform_point_identity. intros i. by apply identity_data.
Qed.

(** The identity passes the rigid-transform test. *)
Lemma identity_passes m t :
  is_identity (heap m) t -> IsValidRigidTransformation (check_data m t) = true.
Proof.
  intros (Hs & Hc & He). unfold IsValidRigidTransformation.
  rewrite !(check_data_row_major m t Hs (or_introl Hc)) by lia.
  rewrite He. reflexivity.
Qed.

Lemma is_identity_app h ext t :
  blob t < length h -> is_identity h t -> is_identity (h ++ ext) t.
Proof. intros Hb (Hs & Hc & He). repeat split; try done. by rewrite elements_app. Qed.

(** The dispatch of Transform(points, transformation) on a device with a
    backend launches one kernel on the points and the transformation of the
    caller. *)
Lemma Transform_dispatch_run B exec points transformation (p' : Tensor) m :
  has_backend B (GetDevice points) ->
  exists b,
    (match GetType (GetDevice points) with
     | CPU => launch exec (TransformCPU points transformation)
     | CUDA => CUDA_CALL B exec (TransformCUDA points transformation)
     | _ => LogError "Unimplemented device"
     end ;; ret p') m
    = (Ok p',
       mkMachine (exec (Launch b (TransformArgs points transformation)) (heap m))
                 (launched m ++ [Launch b (TransformArgs points transformation)])).
Proof.
  unfold has_backend, CUDA_CALL. destruct (GetType (GetDevice points)).
  - intros _. by exists OnCPU.
  - intros ->. by exists OnCUDA.
  - done.
Qed.

Lemma TransformWithNormals_dispatch_run B exec points normals transformation
    (r : Tensor * Tensor) m :
  has_backend B (GetDevice points) ->
  exists b,
    (match GetType (GetDevice points) with
     | CPU => launch exec (TransformNormalsCPU points normals transformation)
     | CUDA => CUDA_CALL B exec (TransformNormalsCUDA points normals transformation)
     | _ => LogError "Unimplemented device"
     end ;; ret r) m
    = (Ok r,
       mkMachine (exec (Launch b (TransformNormalsArgs points normals transformation))
                       (heap m))
                 (launched m ++ [Launch b (TransformNormalsArgs points normals
                                                               transformation)])).
Proof.
  unfold has_backend, CUDA_CALL. destruct (GetType (GetDevice points)).
  - intros _. by exists OnCPU.
  - intros ->. by exists OnCUDA.
  - done.
Qed.

Lemma Contiguous_dense t m : IsContiguous t = true -> Contiguous t m = (Ok t, m).
Proof. unfold Contiguous. by intros ->. Qed.

(** With kernels that compute p' = R·p + t and n' = R·n, Transform of
    points (and normals) by a dense 4x4 identity of their dtype and device, on
    a device with a backend, passes the rigid-transform test and returns, and
    the points (and the normals) hold on return the same numbers as before,
    both through the tensor the caller is left with and through the tensor
    the caller passed. *)
Theorem identity_transform_changes_nothing B exec points normals transformation m :
  implements_transform exec ->
  is_identity (heap m) transformation ->
  has_backend B (GetDevice points) ->
  allocated m transformation ->
  well_formed points -> allocated m points ->
  (matches points transformation ->
   exists p' m',
     Transform B exec points transformation m = (Ok p', m') /\
     same_numbers (elements (heap m') p') (elements (heap m) points) /\
     same_numbers (elements (heap m') points) (elements (heap m) points)) /\
  (matches_normals points normals transformation ->
   well_formed normals -> allocated m normals ->
   exists p' n' m',
     TransformWithNormals B exec points normals transformation m
     = (Ok (p', n'), m') /\
     same_numbers (elements (heap m') p') (elements (heap m) points) /\
     same_numbers (elements (heap m') n') (elements (heap m) normals) /\
     same_numbers (elements (heap m') points) (elements (heap m) points) /\
     same_numbers (elements (heap m') normals) (elements (heap m) normals)).
Proof.
  intros [Hk1 Hk2] Hid Hdev Hat Hwp Hap. unfold allocated in *.
  destruct (check_transformation_run transformation m) as (ext0 & Hc).
  rewrite (identity_passes _ _ Hid) in Hc.
  destruct (Contiguous_run points (mkMachine (heap m ++ ext0) (launched m)) Hwp)
    as (p' & ext1 & Hp & _ & Hpe & Hpcase).
  simpl in Hpe, Hp, Hpcase.
  rewrite (elements_app (heap m) ext0 points Hap) in Hpe.
  split.
  - intros Hm. rewrite Transform_after_asserts by done.
    rewrite (bind_Ok _ _ _ _ _ Hc), (bind_Ok _ _ _ _ _ Hp).
    rewrite (bind_Ok _ _ _ _ _ (Contiguous_dense _ _ (proj1 (proj2 Hid)))).
    destruct (Transform_dispatch_run B exec points transformation p'
                (mkMachine ((heap m ++ ext0) ++ ext1) (launched m)) Hdev)
      as (b & ->).
    eexists _, _. split; [reflexivity|]. simpl. rewrite Hk1.
    assert (Hs : same_heap (TransformPointsKernel points transformation
                                                   ((heap m ++ ext0) ++ ext1))
                           ((heap m ++ ext0) ++ ext1)).
    { apply TransformPointsKernel_identity.
      repeat (apply is_identity_app; [rewrite ?length_app; lia|]). done. }
    split.
    + etransitivity; [apply elements_same, Hs|]. by rewrite Hpe.
    + etransitivity; [apply elements_same, Hs|].
      rewrite !elements_app; rewrite ?length_app; try lia. done.
  - intros Hm Hwn Han. rewrite TransformWithNormals_after_asserts by done.
    destruct (Contiguous_run normals
                (mkMachine ((heap m ++ ext0) ++ ext1) (launched m)) Hwn)
      as (n' & ext2 & Hn & _ & Hne & _).
    simpl in Hn.
    rewrite (bind_Ok _ _ _ _ _ Hc), (bind_Ok _ _ _ _ _ Hp), (bind_Ok _ _ _ _ _ Hn).
    rewrite (bind_Ok _ _ _ _ _ (Contiguous_dense _ _ (proj1 (proj2 Hid)))).
    destruct (TransformWithNormals_dispatch_run B exec points normals
                transformation (p', n')
                (mkMachine (((heap m ++ ext0) ++ ext1) ++ ext2) (launched m))
                Hdev) as (b & ->).
    eexists _, _, _. split; [reflexivity|]. simpl. rewrite Hk2.
    simpl in Hne.
    assert (Hs : same_heap (TransformNormalsKernel points normals transformation
                              (((heap m ++ ext0) ++ ext1) ++ ext2))
                           (((heap m ++ ext0) ++ ext1) ++ ext2)).
    { apply TransformNormalsKernel_identity.
      repeat (apply is_identity_app; [rewrite ?length_app; lia|]). done. }
    assert (Hp3 : elements (((heap m ++ ext0) ++ ext1) ++ ext2) p'
                  = elements (heap m) points).
    { rewrite elements_app; [done|].
      destruct (IsContiguous points); destruct Hpcase as [-> ->];
        simpl; rewrite !length_app; simpl; lia. }
    repeat split.
    + etransitivity; [apply elements_same, Hs|]. by rewrite Hp3.
    + etransitivity; [apply elements_same, Hs|].
      rewrite Hne. rewrite !elements_app; rewrite ?length_app; try lia. done.
    + etransitivity; [apply elements_same, Hs|].
      rewrite !elements_app; rewrite ?length_app; try lia. done.
    + etransitivity; [apply elements_same, Hs|].
      rewrite !elements_app; rewrite ?length_app; try lia. done.
Qed.

(** ** Projection: the nearest point wins *)

Lemma project_point_in_image K E W H depth_max x y z px d :
  project_point K E W H depth_max x y z = Some (px, d) -> px < H * W.
Proof.
  unfold project_point. destruct (transform_point E x y z) as [[xc yc] zc].
  destruct (Qle_bool zc 0 || Qgtb zc depth_max); [done|].
  set (u := Qfloor _). set (v := Qfloor _).
  destruct ((0 <=? u)%Z && (u <? Z.of_nat W)%Z && (0 <=? v)%Z && (v <? Z.of_nat H)%Z)
    eqn:Hin; [|done].
  intros [= <- _].
  apply andb_prop in Hin as [Hin Hv2]. apply andb_prop in Hin as [Hin Hv1].
  apply andb_prop in Hin as [Hu1 Hu2].
  apply Z.leb_le in Hu1, Hv1. apply Z.ltb_lt in Hu2, Hv2.
  assert (Z.to_nat u < W) by lia. assert (Z.to_nat v < H) by lia. nia.
Qed.

Lemma Qgtb_1_2 d1 d2 : (d1 == 1)%Q -> (d2 == 2)%Q -> Qgtb d1 d2 = false /\ Qgtb d2 d1 = true.
Proof.
  intros H1 H2. split.
  - apply not_true_iff_false. rewrite Qgtb_lt, H1, H2. by compute.
  - rewrite Qgtb_lt, H1, H2. by compute.
Qed.

(** Two points on one pixel at depths 1 and 2, in either order, leave the
    point at depth 1 in the z-buffer. *)
Lemma rasterize_two proj n px x1 y1 z1 d1 x2 y2 z2 d2 :
  px < n ->
  proj x1 y1 z1 = Some (px, d1) -> (d1 == 1)%Q ->
  proj x2 y2 z2 = Some (px, d2) -> (d2 == 2)%Q ->
  rasterize proj 2 [x1; y1; z1; x2; y2; z2] (replicate n None) !! px = Some (Some d1) /\
  rasterize proj 2 [x2; y2; z2; x1; y1; z1] (replicate n None) !! px = Some (Some d1).
Proof.
  intros Hpx P1 H1 P2 H2. destruct (Qgtb_1_2 d1 d2 H1 H2) as [G12 G21].
  simpl. rewrite P1, P2. unfold nearest_wins.
  rewrite !lookup_replicate_2 by done.
  rewrite !list_lookup_insert_eq by (by rewrite length_replicate).
  rewrite G12, G21.
  rewrite !list_lookup_insert_eq
    by (by rewrite ?length_insert, length_replicate).
  done.
Qed.

Lemma length_nearest_wins zbuf px d : length (nearest_wins zbuf px d) = length zbuf.
Proof.
  unfold nearest_wins. destruct (zbuf !! px) as [[d0|]|]; [|by rewrite length_insert|done].
  destruct (Qgtb d0 d); [by rewrite length_insert|done].
Qed.

Lemma length_rasterize proj n ptr zbuf : length (rasterize proj n ptr zbuf) = length zbuf.
Proof.
  revert ptr zbuf. induction n as [|n IH]; intros ptr zbuf; [done|].
  destruct ptr as [|x [|y [|z rest]]]; try done.
  simpl. rewrite IH. destruct (proj x y z) as [[px d]|]; [|done].
  apply length_nearest_wins.
Qed.

Lemma buffer_store h t data :
  blob t < length h -> buffer (store h t data) t = take (offset t) (buffer h t) ++ data.
Proof.
  intros Hb. unfold store. unfold buffer at 1. unfold Heap in *.
  by rewrite list_lookup_insert_eq.
Qed.

Lemma GetDataPtr_store h t data :
  blob t < length h -> offset t <= length (buffer h t) ->
  GetDataPtr (store h t data) t = data.
Proof.
  intros Hb Ho. unfold GetDataPtr. rewrite buffer_store by done.
  apply drop_app_length'. rewrite length_take. lia.
Qed.

(** What the Project kernel leaves at a pixel of the depth image that a point
    has reached. *)
Lemma ProjectKernel_pixel depth points intrinsics extrinsics depth_scale depth_max
    h H W px d :
  GetShape depth = [H; W] ->
  blob depth < length h ->
  offset depth + H * W <= length (buffer h depth) ->
  rasterize (project_point (elements h intrinsics) (elements h extrinsics)
                           W H depth_max)
            (GetLength points) (GetDataPtr h points)
            (replicate (H * W) None) !! px = Some (Some d) ->
  load (GetDataPtr (ProjectKernel depth points intrinsics extrinsics depth_scale
                                  depth_max h) depth) px
  = (d * depth_scale)%Q.
Proof.
  intros Hs Hb Ho Hz. unfold ProjectKernel. rewrite Hs. simpl nth.
  rewrite GetDataPtr_store by (done || lia).
  assert (Hpx : px < H * W).
  { apply lookup_lt_Some in Hz.
    by rewrite length_rasterize, length_replicate in Hz. }
  assert (Hold : px < length (take (H * W) (GetDataPtr h depth))).
  { unfold GetDataPtr. rewrite length_take, length_drop. lia. }
  destruct (lookup_lt_is_Some_2 _ _ Hold) as [old Hold'].
  unfold load. rewrite nth_lookup, lookup_app_l.
  - rewrite lookup_zip_with, Hold', Hz. reflexivity.
  - rewrite length_zip_with, length_rasterize, length_replicate. lia.
Qed.

(** C5.  With a Project kernel that resolves the points of one pixel by
    "the smallest valid depth wins": when the cloud consists of two points
    that project to one pixel of the depth image, at the valid depths 1 and
    2, Project returns and leaves at that pixel the depth 1, scaled by
    depth_scale as every stored depth is, whichever of the two points comes
    first in the cloud. *)
Theorem nearest_point_wins B exec depth image_colors points colors intrinsics
    extrinsics depth_scale depth_max m H W px x1 y1 z1 d1 x2 y2 z2 d2 :
  implements_project exec ->
  has_value image_colors = has_value colors ->
  has_backend B (GetDevice depth) ->
  GetShape depth = [H; W] ->
  allocated m depth ->
  offset depth + H * W <= length (buffer (heap m) depth) ->
  GetLength points = 2 ->
  let proj := project_point (elements (heap m) intrinsics)
                            (elements (heap m) extrinsics) W H depth_max in
  proj x1 y1 z1 = Some (px, d1) -> (d1 == 1)%Q ->
  proj x2 y2 z2 = Some (px, d2) -> (d2 == 2)%Q ->
  GetDataPtr (heap m) points = [x1; y1; z1; x2; y2; z2] \/
  GetDataPtr (heap m) points = [x2; y2; z2; x1; y1; z1] ->
  exists m',
    Project B exec depth image_colors points colors intrinsics extrinsics
            depth_scale depth_max m = (Ok tt, m') /\
    (load (GetDataPtr (heap m') depth) px == 1 * depth_scale)%Q.
Proof.
  intros Hk Hpair Hdev Hs Ha Ho Hn proj P1 H1 P2 H2 Horder.
  unfold Project. rewrite (eqb_true_eq _ _ Hpair). simpl negb. cbv iota.
  rewrite (bind_Ok _ _ m tt m) by done.
  assert (Hpx : px < H * W) by (by eapply project_point_in_image).
  destruct (rasterize_two proj (H * W) px x1 y1 z1 d1 x2 y2 z2 d2
              Hpx P1 H1 P2 H2) as [R12 R21].
  assert (Hz : rasterize proj (GetLength points) (GetDataPtr (heap m) points)
                 (replicate (H * W) None) !! px = Some (Some d1)).
  { rewrite Hn. by destruct Horder as [-> | ->]. }
  unfold has_backend in Hdev. unfold CUDA_CALL, launch, ProjectCPU, ProjectCUDA.
  destruct (GetType (GetDevice depth)); [|subst B|done];
    (eexists; split; [reflexivity|]); simpl heap; rewrite Hk;
    (erewrite ProjectKernel_pixel;
     [apply Qmult_comp; [exact H1|reflexivity]|done..]).
Qed.

(** ** Strided points *)

Lemma buffer_store_other h t data t' :
  blob t' <> blob t -> buffer (store h t data) t' = buffer h t'.
Proof.
  intros Hne. unfold store, buffer, Heap in *.
  by rewrite list_lookup_insert_ne.
Qed.

Lemma elements_store_other h t data t' :
  blob t' <> blob t -> elements (store h t data) t' = elements h t'.
Proof. intros Hne. unfold elements. by rewrite buffer_store_other. Qed.

(** Whatever the transformation, as long as it passes the test: points that
    are not dense come back as the dense copy that was made of them before
    the kernel ran on the caller's tensor. *)
Lemma Transform_of_strided_points B exec points transformation m :
  implements_transform exec ->
  matches points transformation ->
  IsValidRigidTransformation (check_data m transformation) = true ->
  has_backend B (GetDevice points) ->
  well_formed points -> allocated m points ->
  IsContiguous points = false ->
  exists p' m',
    Transform B exec points transformation m = (Ok p', m') /\
    blob p' <> blob points /\
    elements (heap m') p' = elements (heap m) points.
Proof.
  intros [Hk1 _] Hm Hok Hdev Hwp Hap Hstr. unfold allocated in *.
  destruct (check_transformation_run transformation m) as (ext0 & Hc).
  rewrite Hok in Hc.
  destruct (Contiguous_run points (mkMachine (heap m ++ ext0) (launched m)) Hwp)
    as (p' & ext1 & Hp & _ & Hpe & Hpcase).
  simpl in Hpe, Hp, Hpcase. rewrite Hstr in Hpcase. destruct Hpcase as [Hb Hext].
  rewrite (elements_app (heap m) ext0 points Hap) in Hpe.
  rewrite length_app in Hb.
  destruct (allocates_Contiguous transformation
              (mkMachine ((heap m ++ ext0) ++ ext1) (launched m)))
    as (t' & ext2 & Ht). simpl in Ht.
  rewrite Transform_after_asserts by done.
  rewrite (bind_Ok _ _ _ _ _ Hc), (bind_Ok _ _ _ _ _ Hp), (bind_Ok _ _ _ _ _ Ht).
  destruct (Transform_dispatch_run B exec points transformation p'
              (mkMachine (((heap m ++ ext0) ++ ext1) ++ ext2) (launched m)) Hdev)
    as (b & ->).
  eexists _, _. split; [reflexivity|]. split; [lia|].
  simpl. rewrite Hk1. unfold TransformPointsKernel.
  rewrite elements_store_other by lia.
  rewrite elements_app; [done|]. rewrite !length_app, Hext. simpl. lia.
Qed.

(** Dense points are transformed in place: the kernel runs on the buffer of
    the caller's tensor, and the caller keeps that tensor. *)
Lemma Transform_of_dense_points B exec points transformation m :
  implements_transform exec ->
  matches points transformation ->
  IsValidRigidTransformation (check_data m transformation) = true ->
  has_backend B (GetDevice points) ->
  IsContiguous points = true ->
  exists b ext,
    Transform B exec points transformation m
    = (Ok points,
       mkMachine (TransformPointsKernel points transformation (heap m ++ ext))
                 (launched m ++ [Launch b (TransformArgs points transformation)])).
Proof.
  intros [Hk1 _] Hm Hok Hdev Hdense.
  destruct (check_transformation_run transformation m) as (ext0 & Hc).
  rewrite Hok in Hc.
  destruct (allocates_Contiguous transformation
              (mkMachine (heap m ++ ext0) (launched m)))
    as (t' & ext2 & Ht). simpl in Ht.
  rewrite Transform_after_asserts by done.
  rewrite (bind_Ok _ _ _ _ _ Hc).
  rewrite (bind_Ok _ _ _ _ _ (Contiguous_dense _ _ Hdense)).
  rewrite (bind_Ok _ _ _ _ _ Ht).
  destruct (Transform_dispatch_run B exec points transformation points
              (mkMachine ((heap m ++ ext0) ++ ext2) (launched m)) Hdev)
    as (b & ->).
  exists b, (ext0 ++ ext2). simpl. by rewrite Hk1, app_assoc.
Qed.

(** ** The properties at work on the sample data *)

Lemma reference_backend_transform : implements_transform reference_backend.
Proof. by split. Qed.

Lemma reference_backend_project : implements_project reference_backend.
Proof. by intros b d ic p cs i e s mx h. Qed.

Lemma invalid_transformation_no_mutation_witness :
  IsValidRigidTransformation (check_data host_machine scaling_dense) = false /\
  exists e m',
    Transform true reference_backend cloud_dense scaling_dense host_machine
    = (Fatal e, m') /\ untouched host_machine m'.
Proof.
  assert (Hbad : IsValidRigidTransformation (check_data host_machine scaling_dense)
                 = false) by (by vm_compute).
  split; [exact Hbad|].
  destruct (invalid_transformation_no_mutation true reference_backend cloud_dense
              normals_dense scaling_dense host_machine Hbad)
    as [(e & m' & Hr & Hu & _) _].
  by exists e, m'.
Defined.

Lemma pairing_mismatch_is_fatal_witness :
  has_value (Some sample_cloud) <> has_value (@None Tensor) /\
  Unproject true idle_backend sample_depth_map (Some sample_cloud) sample_cloud
            None sample_intrinsics sample_extrinsics 1000 3 1 sample_machine
  = (Fatal (Message "[Unproject] Both or none of image_colors and colors must have values."),
     sample_machine).
Proof.
  assert (Hne : has_value (Some sample_cloud) <> has_value (@None Tensor))
    by discriminate.
  split; [exact Hne|].
  apply (proj1 (pairing_mismatch_is_fatal true idle_backend sample_depth_map
                  (Some sample_cloud) sample_cloud None sample_intrinsics
                  sample_extrinsics 1000 3 1 sample_machine) Hne).
Defined.

Lemma Transform_mismatch_is_fatal_witness :
  ~ matches cloud_dense camera_extrinsics /\
  exists a,
    Transform true reference_backend cloud_dense camera_extrinsics host_machine
    = (Fatal (Assert a), host_machine).
Proof.
  assert (Hne : ~ matches cloud_dense camera_extrinsics).
  { intros (_ & Hd & _). discriminate Hd. }
  split; [exact Hne|].
  apply (proj1 (Transform_mismatch_is_fatal true reference_backend cloud_dense
                  normals_dense camera_extrinsics host_machine) Hne).
Defined.

Lemma no_backend_is_fatal_witness :
  no_backend false (CallCreateVertexMap sample_depth_map sample_intrinsics
                                        sample_vertex_map 1000 3) /\
  exists e m',
    run false idle_backend
        (CallCreateVertexMap sample_depth_map sample_intrinsics sample_vertex_map
                             1000 3) sample_machine
    = (Fatal e, m') /\
    untouched sample_machine m' /\
    (reaches_dispatch (CallCreateVertexMap sample_depth_map sample_intrinsics
                                           sample_vertex_map 1000 3) sample_machine ->
     e = Message "Not compiled with CUDA, but CUDA device is used.").
Proof.
  assert (Hno : no_backend false (CallCreateVertexMap sample_depth_map
                                    sample_intrinsics sample_vertex_map 1000 3))
    by reflexivity.
  split; [exact Hno|].
  exact (no_backend_is_fatal false idle_backend _ sample_machine Hno).
Defined.

Lemma nearest_point_wins_witness :
  implements_project reference_backend /\
  has_backend true (GetDevice camera_depth) /\
  GetShape camera_depth = [2; 2] /\
  allocated camera_machine camera_depth /\
  GetLength camera_cloud = 2 /\
  project_point (elements (heap camera_machine) camera_intrinsics)
                (elements (heap camera_machine) camera_extrinsics) 2 2 3 0 0 1
  = Some (0, 1%Q) /\
  project_point (elements (heap camera_machine) camera_intrinsics)
                (elements (heap camera_machine) camera_extrinsics) 2 2 3 0 0 2
  = Some (0, 2%Q) /\
  GetDataPtr (heap camera_machine) camera_cloud = [0; 0; 1; 0; 0; 2]%Q /\
  exists m',
    Project true reference_backend camera_depth None camera_cloud None
            camera_intrinsics camera_extrinsics 1000 3 camera_machine
    = (Ok tt, m') /\
    (load (GetDataPtr (heap m') camera_depth) 0 == 1 * 1000)%Q.
Proof.
  assert (Hs : GetShape camera_depth = [2; 2]) by reflexivity.
  assert (Ha : allocated camera_machine camera_depth) by (vm_compute; lia).
  assert (Hn : GetLength camera_cloud = 2) by reflexivity.
  assert (P1 : project_point (elements (heap camera_machine) camera_intrinsics)
                 (elements (heap camera_machine) camera_extrinsics) 2 2 3 0 0 1
               = Some (0, 1%Q)) by (by vm_compute).
  assert (P2 : project_point (elements (heap camera_machine) camera_intrinsics)
                 (elements (heap camera_machine) camera_extrinsics) 2 2 3 0 0 2
               = Some (0, 2%Q)) by (by vm_compute).
  assert (Hd : GetDataPtr (heap camera_machine) camera_cloud
               = [0; 0; 1; 0; 0; 2]%Q) by reflexivity.
  repeat (split; [first [exact reference_backend_project | exact I | assumption]|]).
  apply (nearest_point_wins true reference_backend camera_depth None camera_cloud
           None camera_intrinsics camera_extrinsics 1000 3 camera_machine
           2 2 0 0 0 1 1 0 0 2 2 reference_backend_project eq_refl I Hs Ha).
  - vm_compute. lia.
  - exact Hn.
  - exact P1.
  - reflexivity.
  - exact P2.
  - reflexivity.
  - left. exact Hd.
Defined.

Lemma identity_transform_changes_nothing_witness :
  implements_transform reference_backend /\
  is_identity (heap host_machine) eye_dense /\
  has_backend true (GetDevice cloud_dense) /\
  allocated host_machine eye_dense /\
  well_formed cloud_dense /\ allocated host_machine cloud_dense /\
  matches cloud_dense eye_dense /\
  exists p' m',
    Transform true reference_backend cloud_dense eye_dense host_machine
    = (Ok p', m') /\
    same_numbers (elements (heap m') p') (elements (heap host_machine) cloud_dense) /\
    same_numbers (elements (heap m') cloud_dense)
                 (elements (heap host_machine) cloud_dense).
Proof.
  assert (Hid : is_identity (heap host_machine) eye_dense) by (by repeat split).
  assert (Hat : allocated host_machine eye_dense) by (vm_compute; lia).
  assert (Hwp : well_formed cloud_dense) by reflexivity.
  assert (Hap : allocated host_machine cloud_dense) by (vm_compute; lia).
  assert (Hm : matches cloud_dense eye_dense) by (by repeat split).
  repeat (split; [first [exact reference_backend_transform | exact I | assumption]|]).
  exact (proj1 (identity_transform_changes_nothing true reference_backend
                  cloud_dense normals_dense eye_dense host_machine
                  reference_backend_transform Hid I Hat Hwp Hap) Hm).
Defined.

(** C4, as stated, fails: on a build with CUDA, CreateVertexMap of a depth map
    on CUDA:0 launches its kernel on the Float32 intrinsics on CUDA:0 that the
    caller passed. *)
Lemma CreateVertexMap_keeps_intrinsics_on_device :
  ~ camera_matrices_normalized true idle_backend
      (CallCreateVertexMap sample_depth_map sample_intrinsics sample_vertex_map
                           1000 3)
      sample_machine.
Proof.
  unfold camera_matrices_normalized. simpl.
  intros H. apply Forall_cons in H as [H _]. simpl in H.
  apply Forall_cons in H as [[Hdev _] _]. discriminate Hdev.
Qed.

(** * Further properties of the dispatchers *)

(** ** When a call returns *)

#[global] Instance has_backend_dec B device : Decision (has_backend B device).
Proof. unfold has_backend. destruct (GetType device); apply _. Defined.

#[global] Instance reaches_dispatch_dec c m : Decision (reaches_dispatch c m).
Proof. destruct c; simpl; apply _. Defined.

Lemma eqb_true_inv (a b : bool) : eqb a b = true -> a = b.
Proof. by destruct a, b. Qed.

Lemma eqb_false_inv (a b : bool) : eqb a b = false -> a <> b.
Proof. by destruct a, b. Qed.

(** Every call either passes its checks on a device with a backend, launches
    one kernel there and returns, or ends in a fatal error without having
    launched a kernel or touched a buffer. *)
Lemma run_outcome B exec c m :
  match run B exec c m with
  | (Ok _, m') =>
      reaches_dispatch c m /\ has_backend B (dispatch_device c) /\
      exists k ext,
        m' = mkMachine (exec k (heap m ++ ext)) (launched m ++ [k]) /\
        backend k = backend_for (dispatch_device c) /\
        same_operation c (kernel_args k)
  | (Fatal e, m') =>
      ~ (reaches_dispatch c m /\ has_backend B (dispatch_device c)) /\
      untouched m m' /\ In e (errors_of c)
  end.
Proof.
  unfold has_backend, backend_for.
  destruct c as [d ic p cs i e s mx st | d ic p cs i e s mx | p t | p n t
                 | d i v s mx | v n s mx dd]; simpl.
  - unfold Unproject.
    destruct (eqb (has_value ic) (has_value cs)) eqn:Hp; simpl.
    + apply eqb_true_inv in Hp.
      rewrite (bind_Ok _ _ m tt m) by done. do 2 step_alloc.
      unfold CUDA_CALL, launch, LogError, throw.
      destruct (GetType (GetDevice d)); [|destruct B|].
      * simpl. split; [done|]. split; [done|]. eexists _, (ext ++ ext0). simpl.
        rewrite app_assoc. split; [reflexivity|split; [reflexivity|exact I]].
      * simpl. split; [done|]. split; [done|]. eexists _, (ext ++ ext0). simpl.
        rewrite app_assoc. split; [reflexivity|split; [reflexivity|exact I]].
      * simpl. split; [intros [_ ?]; done|split; [solve_untouched|simpl; tauto]].
      * simpl. split; [intros [_ ?]; done|split; [solve_untouched|simpl; tauto]].
    + apply eqb_false_inv in Hp. split; [intros [? _]; done|split; [solve_untouched|simpl; tauto]].
  - unfold Project.
    destruct (eqb (has_value ic) (has_value cs)) eqn:Hp; simpl.
    + apply eqb_true_inv in Hp.
      rewrite (bind_Ok _ _ m tt m) by done.
      unfold CUDA_CALL, launch, LogError, throw.
      destruct (GetType (GetDevice d)); [|destruct B|].
      * simpl. split; [done|]. split; [done|]. eexists _, []. simpl.
        rewrite app_nil_r. split; [reflexivity|split; [reflexivity|exact I]].
      * simpl. split; [done|]. split; [done|]. eexists _, []. simpl.
        rewrite app_nil_r. split; [reflexivity|split; [reflexivity|exact I]].
      * simpl. split; [intros [_ ?]; done|split; [solve_untouched|simpl; tauto]].
      * simpl. split; [intros [_ ?]; done|split; [solve_untouched|simpl; tauto]].
    + apply eqb_false_inv in Hp. split; [intros [? _]; done|split; [solve_untouched|simpl; tauto]].
  - destruct (decide (matches p t)) as [Hm|Hm].
    + unfold bind at 1. rewrite Transform_after_asserts by done.
      destruct (check_transformation_run t m) as (ext & Hc).
      unfold bind at 1. rewrite Hc.
      destruct (IsValidRigidTransformation (check_data m t)).
      * do 2 step_alloc. unfold CUDA_CALL, launch, LogError, throw, bind, ret.
        destruct (GetType (GetDevice p)); [|destruct B|].
        -- simpl. split; [by split|]. split; [done|]. eexists _, (ext ++ ext0 ++ ext1).
           simpl. rewrite !app_assoc. split; [reflexivity|split; [reflexivity|exact I]].
        -- simpl. split; [by split|]. split; [done|]. eexists _, (ext ++ ext0 ++ ext1).
           simpl. rewrite !app_assoc. split; [reflexivity|split; [reflexivity|exact I]].
        -- simpl. split; [intros [_ ?]; done|split; [solve_untouched|simpl; tauto]].
        -- simpl. split; [intros [_ ?]; done|split; [solve_untouched|simpl; tauto]].
      * simpl. split; [intros [[_ ?] _]; done|split; [solve_untouched|simpl; tauto]].
    + destruct (Transform_asserts_fail B exec _ _ m Hm) as (a & Ha).
      rewrite (bind_Fatal _ _ _ _ _ Ha). split; [tauto|split; [solve_untouched|destruct a; simpl; tauto]].
  - destruct (decide (matches_normals p n t)) as [Hm|Hm].
    + unfold bind at 1. rewrite TransformWithNormals_after_asserts by done.
      destruct (check_transformation_run t m) as (ext & Hc).
      unfold bind at 1. rewrite Hc.
      destruct (IsValidRigidTransformation (check_data m t)).
      * do 3 step_alloc. unfold CUDA_CALL, launch, LogError, throw, bind, ret.
        destruct (GetType (GetDevice p)); [|destruct B|].
        -- simpl. split; [by split|]. split; [done|].
           eexists _, (ext ++ ext0 ++ ext1 ++ ext2).
           simpl. rewrite !app_assoc. split; [reflexivity|split; [reflexivity|exact I]].
        -- simpl. split; [by split|]. split; [done|].
           eexists _, (ext ++ ext0 ++ ext1 ++ ext2).
           simpl. rewrite !app_assoc. split; [reflexivity|split; [reflexivity|exact I]].
        -- simpl. split; [intros [_ ?]; done|split; [solve_untouched|simpl; tauto]].
        -- simpl. split; [intros [_ ?]; done|split; [solve_untouched|simpl; tauto]].
      * simpl. split; [intros [[_ ?] _]; done|split; [solve_untouched|simpl; tauto]].
    + destruct (TransformWithNormals_asserts_fail B exec _ _ _ m Hm) as (a & Ha).
      rewrite (bind_Fatal _ _ _ _ _ Ha). split; [tauto|split; [solve_untouched|destruct a; simpl; tauto]].
  - unfold CreateVertexMap.
    destruct (bool_decide (GetDevice d = GetDevice i)) eqn:Hp; simpl.
    + apply bool_decide_eq_true in Hp.
      rewrite (bind_Ok _ _ m tt m) by done. unfold launch, LogError.
      destruct (GetType (GetDevice d)); [|destruct B|].
      * simpl. split; [done|]. split; [done|]. eexists _, []. simpl.
        rewrite app_nil_r. split; [reflexivity|split; [reflexivity|exact I]].
      * simpl. split; [done|]. split; [done|]. eexists _, []. simpl.
        rewrite app_nil_r. split; [reflexivity|split; [reflexivity|exact I]].
      * simpl. split; [intros [_ ?]; done|split; [solve_untouched|simpl; tauto]].
      * simpl. split; [intros [_ ?]; done|split; [solve_untouched|simpl; tauto]].
    + apply bool_decide_eq_false in Hp. split; [intros [? _]; done|split; [solve_untouched|simpl; tauto]].
  - unfold CreateNormalMap, launch, LogError.
    destruct (GetType (GetDevice v)); [|destruct B|].
    + simpl. split; [done|]. split; [done|]. eexists _, []. simpl. rewrite app_nil_r. split; [reflexivity|split; [reflexivity|exact I]].
    + simpl. split; [done|]. split; [done|]. eexists _, []. simpl. rewrite app_nil_r. split; [reflexivity|split; [reflexivity|exact I]].
    + simpl. split; [intros [_ ?]; done|split; [solve_untouched|simpl; tauto]].
    + simpl. split; [intros [_ ?]; done|split; [solve_untouched|simpl; tauto]].
Qed.


(** X2.  A call that ends in a fatal error has launched no kernel and has
    left every buffer that existed before it where and as it was: every
    error is raised before the backend runs. *)
Theorem fatal_error_leaves_buffers_untouched B exec c m e m' :
  run B exec c m = (Fatal e, m') -> untouched m m'.
Proof.
  intros Hr. pose proof (run_outcome B exec c m) as H. rewrite Hr in H. tauto.
Qed.

(** X3.  A call that returns has launched exactly one kernel: the kernel of
    the operation called, on the CUDA backend when the device is a CUDA
    device and on the CPU backend otherwise, run on the buffers as they were
    before the call followed by the copies the call has made. *)
Theorem returning_call_launches_one_kernel B exec c m m' :
  run B exec c m = (Ok tt, m') ->
  exists k ext,
    m' = mkMachine (exec k (heap m ++ ext)) (launched m ++ [k]) /\
    backend k = backend_for (dispatch_device c) /\
    same_operation c (kernel_args k).
Proof.
  intros Hr. pose proof (run_outcome B exec c m) as H. rewrite Hr in H. tauto.
Qed.

(** X4.  The fatal errors a call can end in are those in the text of its
    operation: Unproject and Project never fail an assertion, CreateNormalMap
    fails only for want of a backend, and only CreateVertexMap reports an
    inconsistent device. *)
Theorem fatal_error_is_one_of_the_operation B exec c m e m' :
  run B exec c m = (Fatal e, m') -> In e (errors_of c).
Proof.
  intros Hr. pose proof (run_outcome B exec c m) as H. rewrite Hr in H. tauto.
Qed.

(** ** The checks of CreateVertexMap and of Transform *)

(** X5.  CreateVertexMap ends in the error of the inconsistent device, on the
    machine it started on, exactly when the device of the depth map and the
    device of the intrinsics differ, be it in the type or only in the index;
    the device of the vertex map is not looked at. *)
Theorem CreateVertexMap_inconsistent_device B exec depth_map intrinsics vertex_map
    depth_scale depth_max m :
  (GetDevice depth_map <> GetDevice intrinsics ->
   CreateVertexMap B exec depth_map intrinsics vertex_map depth_scale depth_max m
   = (Fatal (Message "Inconsistent device between depth_map ({}) vs intrinsics ({})"), m)) /\
  (GetDevice depth_map = GetDevice intrinsics ->
   fst (CreateVertexMap B exec depth_map intrinsics vertex_map depth_scale
                        depth_max m)
   <> Fatal (Message "Inconsistent device between depth_map ({}) vs intrinsics ({})")).
Proof.
  unfold CreateVertexMap. split; intros Hd.
  - by rewrite bool_decide_eq_false_2.
  - rewrite bool_decide_eq_true_2 by done. simpl.
    rewrite (bind_Ok _ _ m tt m) by done. unfold launch, LogError.
    destruct (GetType (GetDevice depth_map)), B; simpl; discriminate.
Qed.

(** X6.  The assertions of Transform are made kind by kind, and the first
    kind that fails names the error, on the machine the call started on: a
    transformation that is not 4x4 fails the shape assertion whatever the
    dtypes and devices are; with the shape right, a wrong dtype of the
    transformation or of the normals fails the dtype assertion whatever the
    devices are; with shape and dtypes right, a wrong device of the
    transformation or of the normals fails the device assertion. *)
Theorem Transform_first_failed_assertion B exec points normals transformation m :
  (GetShape transformation <> [4; 4] ->
   Transform B exec points transformation m
   = (Fatal (Assert AssertShapeFailed), m) /\
   TransformWithNormals B exec points normals transformation m
   = (Fatal (Assert AssertShapeFailed), m)) /\
  (GetShape transformation = [4; 4] ->
   GetDtype transformation <> GetDtype points ->
   Transform B exec points transformation m
   = (Fatal (Assert AssertDtypeFailed), m) /\
   TransformWithNormals B exec points normals transformation m
   = (Fatal (Assert AssertDtypeFailed), m)) /\
  (GetShape transformation = [4; 4] ->
   GetDtype transformation = GetDtype points ->
   GetDtype normals <> GetDtype points ->
   TransformWithNormals B exec points normals transformation m
   = (Fatal (Assert AssertDtypeFailed), m)) /\
  (GetShape transformation = [4; 4] ->
   GetDtype transformation = GetDtype points ->
   GetDevice transformation <> GetDevice points ->
   Transform B exec points transformation m
   = (Fatal (Assert AssertDeviceFailed), m)) /\
  (GetShape transformation = [4; 4] ->
   GetDtype transformation = GetDtype points ->
   GetDtype normals = GetDtype points ->
   GetDevice transformation <> GetDevice points \/
   GetDevice normals <> GetDevice points ->
   TransformWithNormals B exec points normals transformation m
   = (Fatal (Assert AssertDeviceFailed), m)).
Proof.
  unfold Transform, TransformWithNormals.
  split; [|split; [|split; [|split]]].
  - intros Hs. split; unfold bind at 1; by rewrite AssertShape_run, decide_False.
  - intros Hs Hd.
    split; (unfold bind at 1; rewrite AssertShape_run, decide_True by done);
      unfold bind at 1; by rewrite AssertDtype_run, decide_False.
  - intros Hs Hd Hn. unfold bind at 1. rewrite AssertShape_run, decide_True by done.
    unfold bind at 1. rewrite AssertDtype_run, decide_True by done.
    unfold bind at 1. by rewrite AssertDtype_run, decide_False.
  - intros Hs Hd Hv. unfold bind at 1. rewrite AssertShape_run, decide_True by done.
    unfold bind at 1. rewrite AssertDtype_run, decide_True by done.
    unfold bind at 1. by rewrite AssertDevice_run, decide_False.
  - intros Hs Hd Hn Hv. unfold bind at 1. rewrite AssertShape_run, decide_True by done.
    unfold bind at 1. rewrite AssertDtype_run, decide_True by done.
    unfold bind at 1. rewrite AssertDtype_run, decide_True by done.
    unfold bind at 1. rewrite AssertDevice_run.
    case_decide; [|done].
    unfold bind at 1. rewrite AssertDevice_run. case_decide; [|done]. tauto.
Qed.

(** ** The rigid-transform test *)

(** X7.  The rigid-transform test bounds the nine entries of the block from
    above only, and reads nothing but them and the three entries of the
    bottom row: a row of numbers whose block entries are at most those of an
    accepted row, and whose bottom entries equal those of the accepted row,
    is accepted, whatever stands in the positions 3, 7, 11 and 15. *)
Theorem rigid_test_has_no_lower_bound (accepted other : list Q) :
  (forall i, In i rotation_block -> (load other i <= load accepted i)%Q) ->
  (forall i, In i bottom_row -> (load other i == load accepted i)%Q) ->
  IsValidRigidTransformation accepted = true ->
  IsValidRigidTransformation other = true.
Proof.
  intros Hblock Hbottom Hacc.
  destruct (IsValidRigidTransformation other) eqn:Ho; [done|].
  apply IsValidRigidTransformation_false in Ho.
  assert (Hf : IsValidRigidTransformation accepted = false); [|congruence].
  apply IsValidRigidTransformation_false.
  destruct Ho as [Ho|Ho]; apply Exists_exists in Ho as (i & Hi & Hgt);
    apply list_elem_of_In in Hi.
  - left. apply Exists_exists. exists i. split; [by apply list_elem_of_In|].
    eapply Qlt_le_trans; [exact Hgt|by apply Hblock].
  - right. apply Exists_exists. exists i. split; [by apply list_elem_of_In|].
    intros Hz. apply Hgt. by rewrite (Hbottom i Hi).
Qed.

(** ** What the kernels are given *)

Lemma length_DefaultStrides shape : length (DefaultStrides shape) = length shape.
Proof. induction shape as [|n shape IH]; simpl; [done|by rewrite IH]. Qed.

Lemma keeps_elements_ret t : keeps_elements (ret t) t.
Proof.
  intros m. exists t, []. unfold ret. rewrite app_nil_r. destruct m. simpl.
  repeat split; done.
Qed.

Lemma keeps_elements_dense_copy t dtype device :
  keeps_elements (dense_copy t dtype device) t.
Proof.
  intros m. eexists _, _. rewrite dense_copy_run. split; [reflexivity|].
  split; [reflexivity|]. intros Hw Ha. split; [|split].
  - unfold well_formed. simpl. apply length_DefaultStrides.
  - simpl. rewrite length_app. simpl. lia.
  - by apply elements_dense_copy.
Qed.

Lemma keeps_elements_bind c k t :
  keeps_elements c t -> (forall t1, keeps_elements (k t1) t1) ->
  keeps_elements (bind c k) t.
Proof.
  intros Hc Hk m. destruct (Hc m) as (t1 & ext1 & Hr1 & Hs1 & H1).
  destruct (Hk t1 (mkMachine (heap m ++ ext1) (launched m)))
    as (t2 & ext2 & Hr2 & Hs2 & H2). simpl in *.
  exists t2, (ext1 ++ ext2). rewrite (bind_Ok _ _ _ _ _ Hr1), Hr2, app_assoc.
  split; [reflexivity|]. split; [congruence|]. intros Hw Ha.
  destruct (H1 Hw Ha) as (Hw1 & Ha1 & He1).
  destruct (H2 Hw1 Ha1) as (Hw2 & Ha2 & He2).
  repeat split; [done..|congruence].
Qed.

Lemma keeps_elements_Contiguous t : keeps_elements (Contiguous t) t.
Proof.
  unfold Contiguous. destruct (IsContiguous t);
    [apply keeps_elements_ret|apply keeps_elements_dense_copy].
Qed.

Lemma keeps_elements_To t device dtype : keeps_elements (To t device dtype) t.
Proof.
  unfold To. apply keeps_elements_bind.
  - unfold ToDtype. case_decide;
      [apply keeps_elements_ret|apply keeps_elements_dense_copy].
  - intros t1. unfold ToDevice. case_decide;
      [apply keeps_elements_ret|apply keeps_elements_dense_copy].
Qed.

Lemma keeps_elements_normalize t :
  keeps_elements (t1 <- To t host Float64 ;; Contiguous t1) t.
Proof.
  apply keeps_elements_bind; [apply keeps_elements_To|].
  intros t1. apply keeps_elements_Contiguous.
Qed.

(** Tensor::Contiguous, case by case. *)
Lemma Contiguous_cases t m :
  exists t' ext,
    Contiguous t m = (Ok t', mkMachine (heap m ++ ext) (launched m)) /\
    dense_version_of m t t' /\
    (well_formed t -> allocated m t ->
     blob t' < length (heap m ++ ext) /\
     elements (heap m ++ ext) t' = elements (heap m) t).
Proof.
  unfold Contiguous, dense_version_of. destruct (IsContiguous t) eqn:Hc.
  - exists t, []. rewrite app_nil_r. destruct m. simpl. repeat split; done.
  - eexists _, _. rewrite dense_copy_run. split; [reflexivity|]. simpl.
    split.
    + repeat split; try done. unfold IsContiguous. simpl.
      by apply bool_decide_eq_true.
    + intros Hw Ha. split; [rewrite length_app; simpl; lia|].
      by apply elements_dense_copy.
Qed.

Lemma dense_version_of_later m ext t t' :
  dense_version_of (mkMachine (heap m ++ ext) (launched m)) t t' ->
  dense_version_of m t t'.
Proof.
  unfold dense_version_of. intros (H1 & H2 & H3 & H4 & H5). repeat split; try done.
  destruct (IsContiguous t); [done|]. simpl in H5. rewrite length_app in H5. lia.
Qed.

(** A call that returns has passed its checks on a device with a backend. *)
Lemma Transform_returns_inv B exec p t m p' m' :
  Transform B exec p t m = (Ok p', m') ->
  matches p t /\ IsValidRigidTransformation (check_data m t) = true /\
  has_backend B (GetDevice p).
Proof.
  intros Hr. pose proof (run_outcome B exec (CallTransform p t) m) as H.
  simpl in H. rewrite (bind_Ok _ _ _ _ _ Hr) in H. simpl in H. tauto.
Qed.

Lemma TransformWithNormals_returns_inv B exec p n t m r m' :
  TransformWithNormals B exec p n t m = (Ok r, m') ->
  matches_normals p n t /\ IsValidRigidTransformation (check_data m t) = true /\
  has_backend B (GetDevice p).
Proof.
  intros Hr. pose proof (run_outcome B exec (CallTransformWithNormals p n t) m) as H.
  simpl in H. rewrite (bind_Ok _ _ _ _ _ Hr) in H. simpl in H. tauto.
Qed.

(** The dispatch of the functions of PointCloud.cpp on a device with a
    backend. *)
Lemma dispatch_run {A} B device (a : KernelArgs)
    (exec : KernelCall -> Heap -> Heap) (r : A) m :
  has_backend B device ->
  (match GetType device with
   | CPU => launch exec (Launch OnCPU a)
   | CUDA => CUDA_CALL B exec (Launch OnCUDA a)
   | _ => LogError "Unimplemented device"
   end ;; ret r) m
  = (Ok r, mkMachine (exec (Launch (backend_for device) a) (heap m))
                     (launched m ++ [Launch (backend_for device) a])).
Proof.
  unfold has_backend, backend_for, CUDA_CALL. intros Hb.
  destruct (GetType device); [done|by subst B|done].
Qed.

(** X8.  When Transform(points, transformation) returns, the caller's points
    are a dense tensor of the same shape, dtype and device: the tensor that
    was passed when that was dense, and otherwise a copy in a new buffer.
    The one kernel launched was given the points and the transformation as
    the caller passed them, not their dense copies, and the copy of the
    points was made before the kernel ran: at the launch it held the
    elements the points had before the call. *)
Theorem Transform_returns_dense_points B exec points transformation m p' m' :
  Transform B exec points transformation m = (Ok p', m') ->
  dense_version_of m points p' /\
  exists ext,
    m' = mkMachine
           (exec (Launch (backend_for (GetDevice points))
                         (TransformArgs points transformation))
                 (heap m ++ ext))
           (launched m ++ [Launch (backend_for (GetDevice points))
                                  (TransformArgs points transformation)]) /\
    (well_formed points -> allocated m points ->
     elements (heap m ++ ext) p' = elements (heap m) points).
Proof.
  intros Hr. destruct (Transform_returns_inv _ _ _ _ _ _ _ Hr) as (Hm & Hok & Hb).
  rewrite Transform_after_asserts in Hr by done.
  destruct (check_transformation_run transformation m) as (ext0 & Hc).
  rewrite Hok in Hc. rewrite (bind_Ok _ _ _ _ _ Hc) in Hr.
  destruct (Contiguous_cases points (mkMachine (heap m ++ ext0) (launched m)))
    as (p1 & ext1 & Hp & Hdv & Hel). simpl in Hp, Hel.
  rewrite (bind_Ok _ _ _ _ _ Hp) in Hr.
  destruct (allocates_Contiguous transformation
              (mkMachine ((heap m ++ ext0) ++ ext1) (launched m)))
    as (t1 & ext2 & Ht). simpl in Ht.
  rewrite (bind_Ok _ _ _ _ _ Ht) in Hr.
  unfold TransformCPU, TransformCUDA in Hr.
  rewrite (dispatch_run B (GetDevice points)) in Hr by done.
  injection Hr as <- <-. simpl.
  split; [by eapply dense_version_of_later|].
  exists (ext0 ++ ext1 ++ ext2). rewrite !app_assoc. split; [reflexivity|].
  intros Hw Ha. unfold allocated in *. simpl in Hel.
  destruct Hel as [Hlt He]; [done|rewrite length_app; lia|].
  rewrite elements_app by done. rewrite He. by apply elements_app.
Qed.

(** X9.  When Transform(points, normals, transformation) returns, the
    caller's points and normals are dense tensors of the same shape, dtype
    and device: the tensors that were passed when those were dense, and
    otherwise copies in new buffers.  The one kernel launched was given the
    points and the normals as the caller passed them, and a dense version of
    the transformation with the same elements; the copies were made before
    the kernel ran. *)
Theorem TransformWithNormals_returns_dense B exec points normals transformation
    m p' n' m' :
  TransformWithNormals B exec points normals transformation m = (Ok (p', n'), m') ->
  dense_version_of m points p' /\
  dense_version_of m normals n' /\
  exists t' ext,
    dense_version_of m transformation t' /\
    m' = mkMachine
           (exec (Launch (backend_for (GetDevice points))
                         (TransformNormalsArgs points normals t'))
                 (heap m ++ ext))
           (launched m ++ [Launch (backend_for (GetDevice points))
                                  (TransformNormalsArgs points normals t')]) /\
    (well_formed points -> allocated m points ->
     elements (heap m ++ ext) p' = elements (heap m) points) /\
    (well_formed normals -> allocated m normals ->
     elements (heap m ++ ext) n' = elements (heap m) normals) /\
    (well_formed transformation -> allocated m transformation ->
     elements (heap m ++ ext) t' = elements (heap m) transformation).
Proof.
  intros Hr.
  destruct (TransformWithNormals_returns_inv _ _ _ _ _ _ _ _ Hr) as (Hm & Hok & Hb).
  rewrite TransformWithNormals_after_asserts in Hr by done.
  destruct (check_transformation_run transformation m) as (ext0 & Hc).
  rewrite Hok in Hc. rewrite (bind_Ok _ _ _ _ _ Hc) in Hr.
  destruct (Contiguous_cases points (mkMachine (heap m ++ ext0) (launched m)))
    as (p1 & ext1 & Hp & Hdp & Hep). simpl in Hp, Hep.
  rewrite (bind_Ok _ _ _ _ _ Hp) in Hr.
  destruct (Contiguous_cases normals
              (mkMachine ((heap m ++ ext0) ++ ext1) (launched m)))
    as (n1 & ext2 & Hn & Hdn & Hen). simpl in Hn, Hen.
  rewrite (bind_Ok _ _ _ _ _ Hn) in Hr.
  destruct (Contiguous_cases transformation
              (mkMachine (((heap m ++ ext0) ++ ext1) ++ ext2) (launched m)))
    as (t1 & ext3 & Ht & Hdt & Het). simpl in Ht, Het.
  rewrite (bind_Ok _ _ _ _ _ Ht) in Hr.
  unfold TransformNormalsCPU, TransformNormalsCUDA in Hr.
  rewrite (dispatch_run B (GetDevice points)) in Hr by done.
  injection Hr as <- <- <-. simpl.
  split; [by eapply dense_version_of_later|].
  split.
  { eapply dense_version_of_later.
    rewrite <- (app_assoc (heap m) ext0 ext1) in Hdn. exact Hdn. }
  exists t1, (ext0 ++ ext1 ++ ext2 ++ ext3). rewrite !app_assoc.
  split.
  { eapply dense_version_of_later.
    rewrite <- !app_assoc in Hdt. exact Hdt. }
  split; [reflexivity|]. unfold allocated in *. simpl in Hep, Hen, Het.
  split; [|split]; intros Hw Ha.
  - destruct Hep as [Hlt He]; [done|rewrite length_app; lia|].
    rewrite (elements_app _ ext3) by (rewrite length_app; lia).
    rewrite (elements_app _ ext2) by done.
    rewrite He. by apply elements_app.
  - destruct Hen as [Hlt He]; [done|rewrite !length_app; lia|].
    rewrite (elements_app _ ext3) by done. rewrite He.
    rewrite (elements_app _ ext1) by (rewrite length_app; lia).
    by apply elements_app.
  - destruct Het as [Hlt He]; [done|rewrite !length_app; lia|].
    rewrite He.
    rewrite (elements_app _ ext2) by (rewrite !length_app; lia).
    rewrite (elements_app _ ext1) by (rewrite length_app; lia).
    by apply elements_app.
Qed.

Lemma dispatch_run_unit B device (a : KernelArgs)
    (exec : KernelCall -> Heap -> Heap) m :
  has_backend B device ->
  (match GetType device with
   | CPU => launch exec (Launch OnCPU a)
   | CUDA => CUDA_CALL B exec (Launch OnCUDA a)
   | _ => LogError "Unimplemented device"
   end) m
  = (Ok tt, mkMachine (exec (Launch (backend_for device) a) (heap m))
                      (launched m ++ [Launch (backend_for device) a])).
Proof.
  unfold has_backend, backend_for, CUDA_CALL. intros Hb.
  destruct (GetType device); [done|by subst B|done].
Qed.

(** X10.  When Unproject returns, the one kernel launched was given the
    depth image, the colour arguments, the points, the scalars and the stride
    as the caller passed them, and in place of the intrinsics and of the
    extrinsics dense Float64 tensors in host memory of the same shape and
    with the same elements. *)
Theorem Unproject_kernel_arguments B exec depth image_colors points colors
    intrinsics extrinsics depth_scale depth_max stride m m' :
  Unproject B exec depth image_colors points colors intrinsics extrinsics
            depth_scale depth_max stride m = (Ok tt, m') ->
  exists intrinsics_d extrinsics_d ext,
    m' = mkMachine
           (exec (Launch (backend_for (GetDevice depth))
                         (UnprojectArgs depth image_colors points colors
                                        intrinsics_d extrinsics_d depth_scale
                                        depth_max stride))
                 (heap m ++ ext))
           (launched m ++ [Launch (backend_for (GetDevice depth))
                                  (UnprojectArgs depth image_colors points colors
                                                 intrinsics_d extrinsics_d
                                                 depth_scale depth_max stride)]) /\
    (on_host_float64 intrinsics_d /\ IsContiguous intrinsics_d = true /\
     GetShape intrinsics_d = GetShape intrinsics) /\
    (on_host_float64 extrinsics_d /\ IsContiguous extrinsics_d = true /\
     GetShape extrinsics_d = GetShape extrinsics) /\
    (well_formed intrinsics -> allocated m intrinsics ->
     elements (heap m ++ ext) intrinsics_d = elements (heap m) intrinsics) /\
    (well_formed extrinsics -> allocated m extrinsics ->
     elements (heap m ++ ext) extrinsics_d = elements (heap m) extrinsics).
Proof.
  intros Hr.
  pose proof (run_outcome B exec
                (CallUnproject depth image_colors points colors intrinsics
                               extrinsics depth_scale depth_max stride) m) as H.
  simpl in H. rewrite Hr in H. destruct H as (Hpair & Hb & _).
  unfold Unproject in Hr. rewrite (eqb_true_eq _ _ Hpair) in Hr. simpl in Hr.
  rewrite (bind_Ok _ _ m tt m) in Hr by done.
  destruct (keeps_elements_normalize intrinsics m)
    as (i_d & ext1 & Hi & Hsi & Hei).
  pose proof (normalized_matrix _ _ _ _ Hi) as [Hhi Hci].
  rewrite (bind_Ok _ _ _ _ _ Hi) in Hr.
  destruct (keeps_elements_normalize extrinsics
              (mkMachine (heap m ++ ext1) (launched m)))
    as (e_d & ext2 & He & Hse & Hee). simpl in He, Hee.
  pose proof (normalized_matrix _ _ _ _ He) as [Hhe Hce].
  rewrite (bind_Ok _ _ _ _ _ He) in Hr.
  unfold UnprojectCPU, UnprojectCUDA in Hr.
  rewrite (dispatch_run_unit B (GetDevice depth)) in Hr by done.
  injection Hr as <-. simpl.
  exists i_d, e_d, (ext1 ++ ext2). rewrite app_assoc.
  split; [reflexivity|]. split; [done|]. split; [done|].
  unfold allocated in *. simpl in Hee. split; intros Hw Ha.
  - destruct (Hei Hw Ha) as (_ & Hlt & Hel).
    rewrite elements_app by done. exact Hel.
  - destruct Hee as (_ & _ & Hel); [done|rewrite length_app; lia|].
    rewrite Hel. by apply elements_app.
Qed.

(** X11.  Project, CreateVertexMap and CreateNormalMap prepare nothing: when
    one of them returns, the one kernel launched was given every argument as
    the caller passed it, the intrinsics and extrinsics included, and ran on
    the buffers as they were before the call. *)
Theorem pass_through_dispatchers B exec depth image_colors points colors
    intrinsics extrinsics vertex_map normal_map depth_scale depth_max depth_diff m :
  (forall m',
     Project B exec depth image_colors points colors intrinsics extrinsics
             depth_scale depth_max m = (Ok tt, m') ->
     m' = mkMachine
            (exec (Launch (backend_for (GetDevice depth))
                          (ProjectArgs depth image_colors points colors
                                       intrinsics extrinsics depth_scale
                                       depth_max))
                  (heap m))
            (launched m ++ [Launch (backend_for (GetDevice depth))
                                   (ProjectArgs depth image_colors points colors
                                                intrinsics extrinsics
                                                depth_scale depth_max)])) /\
  (forall m',
     CreateVertexMap B exec depth intrinsics vertex_map depth_scale depth_max m
     = (Ok tt, m') ->
     m' = mkMachine
            (exec (Launch (backend_for (GetDevice depth))
                          (CreateVertexMapArgs depth intrinsics vertex_map
                                               depth_scale depth_max))
                  (heap m))
            (launched m ++ [Launch (backend_for (GetDevice depth))
                                   (CreateVertexMapArgs depth intrinsics
                                                        vertex_map depth_scale
                                                        depth_max)])) /\
  (forall m',
     CreateNormalMap B exec vertex_map normal_map depth_scale depth_max
                     depth_diff m = (Ok tt, m') ->
     m' = mkMachine
            (exec (Launch (backend_for (GetDevice vertex_map))
                          (CreateNormalMapArgs vertex_map normal_map depth_scale
                                               depth_max depth_diff))
                  (heap m))
            (launched m ++ [Launch (backend_for (GetDevice vertex_map))
                                   (CreateNormalMapArgs vertex_map normal_map
                                                        depth_scale depth_max
                                                        depth_diff)])).
Proof.
  unfold backend_for. split; [|split]; intros m'.
  - unfold Project.
    destruct (eqb (has_value image_colors) (has_value colors)); simpl;
      [|discriminate].
    rewrite (bind_Ok _ _ m tt m) by done.
    unfold CUDA_CALL, launch, LogError, throw, ProjectCPU, ProjectCUDA.
    destruct (GetType (GetDevice depth)), B; simpl; intros [= <-]; reflexivity.
  - unfold CreateVertexMap.
    destruct (bool_decide (GetDevice depth = GetDevice intrinsics)); simpl;
      [|discriminate].
    rewrite (bind_Ok _ _ m tt m) by done.
    unfold launch, LogError, CreateVertexMapCPU, CreateVertexMapCUDA.
    destruct (GetType (GetDevice depth)), B; simpl; intros [= <-]; reflexivity.
  - unfold CreateNormalMap, launch, LogError, CreateNormalMapCPU,
      CreateNormalMapCUDA.
    destruct (GetType (GetDevice vertex_map)), B; simpl; intros [= <-];
      reflexivity.
Qed.

(** ** Dense matrices *)

Lemma IsValidRigidTransformation_ext (a b : list Q) :
  (forall i, i < 16 -> load a i = load b i) ->
  IsValidRigidTransformation a = IsValidRigidTransformation b.
Proof.
  intros H. unfold IsValidRigidTransformation.
  rewrite (H 0), (H 1), (H 2), (H 4), (H 5), (H 6), (H 8), (H 9), (H 10),
    (H 12), (H 13), (H 14) by lia.
  reflexivity.
Qed.

Lemma Transform_invalid_iff B exec points transformation m :
  matches points transformation ->
  fst (Transform B exec points transformation m)
  = Fatal (Message "Invalid Transformation Matrix. Only Rigid Transformation is supported.")
  <-> IsValidRigidTransformation (check_data m transformation) = false.
Proof.
  intros Hm. rewrite Transform_after_asserts by done.
  destruct (check_transformation_run transformation m) as (ext & Hc).
  unfold bind at 1. rewrite Hc.
  destruct (IsValidRigidTransformation _); simpl; [|done].
  split; [|done]. do 2 step_alloc.
  unfold CUDA_CALL, launch, LogError, throw, bind, ret.
  destruct (GetType (GetDevice points)), B; simpl; discriminate.
Qed.

(** X12.  For transformations that are dense, or that are not already
    Float64 tensors on CPU:0, the verdict of the rigid-transform test of
    Transform depends on the entries alone: two such matrices with the same
    entries, whatever their dtypes, devices, buffers and machines, are both
    rejected or both not. *)
Theorem rigid_test_of_dense_matrices B exec p1 t1 m1 p2 t2 m2 :
  matches p1 t1 -> matches p2 t2 ->
  IsContiguous t1 = true \/ GetDtype t1 <> Float64 \/ GetDevice t1 <> host ->
  IsContiguous t2 = true \/ GetDtype t2 <> Float64 \/ GetDevice t2 <> host ->
  elements (heap m1) t1 = elements (heap m2) t2 ->
  (fst (Transform B exec p1 t1 m1)
   = Fatal (Message "Invalid Transformation Matrix. Only Rigid Transformation is supported.")
   <->
   fst (Transform B exec p2 t2 m2)
   = Fatal (Message "Invalid Transformation Matrix. Only Rigid Transformation is supported.")).
Proof.
  intros Hm1 Hm2 Hd1 Hd2 He.
  rewrite !Transform_invalid_iff by done.
  assert (Hv : IsValidRigidTransformation (check_data m1 t1)
               = IsValidRigidTransformation (check_data m2 t2)); [|by rewrite Hv].
  apply IsValidRigidTransformation_ext. intros i Hi.
  rewrite (check_data_row_major m1 t1 (proj1 Hm1) Hd1 i Hi).
  rewrite (check_data_row_major m2 t2 (proj1 Hm2) Hd2 i Hi).
  by rewrite He.
Qed.

Lemma To_same t device dtype m :
  GetDevice t = device -> GetDtype t = dtype -> To t device dtype m = (Ok t, m).
Proof.
  intros Hv Hd. unfold To, ToDtype, ToDevice, bind, ret.
  by rewrite !decide_True.
Qed.

(** X13.  Unproject makes no copy of matrices that are already dense Float64
    tensors in host memory: the kernel is given the intrinsics and the
    extrinsics of the caller themselves and runs on the buffers as they were
    before the call. *)
Theorem Unproject_keeps_normalized_matrices B exec depth image_colors points
    colors intrinsics extrinsics depth_scale depth_max stride m :
  has_value image_colors = has_value colors ->
  has_backend B (GetDevice depth) ->
  on_host_float64 intrinsics -> IsContiguous intrinsics = true ->
  on_host_float64 extrinsics -> IsContiguous extrinsics = true ->
  Unproject B exec depth image_colors points colors intrinsics extrinsics
            depth_scale depth_max stride m
  = (Ok tt,
     mkMachine
       (exec (Launch (backend_for (GetDevice depth))
                     (UnprojectArgs depth image_colors points colors intrinsics
                                    extrinsics depth_scale depth_max stride))
             (heap m))
       (launched m ++ [Launch (backend_for (GetDevice depth))
                              (UnprojectArgs depth image_colors points colors
                                             intrinsics extrinsics depth_scale
                                             depth_max stride)])).
Proof.
  intros Hpair Hb [Hvi Hdi] Hci [Hve Hde] Hce.
  unfold Unproject. rewrite (eqb_true_eq _ _ Hpair). simpl.
  rewrite (bind_Ok _ _ m tt m) by done.
  assert (Hn : forall t, GetDevice t = host -> GetDtype t = Float64 ->
                 IsContiguous t = true ->
                 (t1 <- To t host Float64 ;; Contiguous t1) m = (Ok t, m)).
  { intros t Hv Hd Hc. rewrite (bind_Ok _ _ _ _ _ (To_same _ _ _ _ Hv Hd)).
    by apply Contiguous_dense. }
  rewrite (bind_Ok _ _ _ _ _ (Hn _ Hvi Hdi Hci)).
  rewrite (bind_Ok _ _ _ _ _ (Hn _ Hve Hde Hce)).
  unfold UnprojectCPU, UnprojectCUDA.
  by apply dispatch_run_unit.
Qed.

(** ** The further properties at work on the sample data *)

Lemma fatal_error_leaves_buffers_untouched_witness :
  run true reference_backend (CallTransform cloud_dense scaling_dense) host_machine
  = (Fatal (Message "Invalid Transformation Matrix. Only Rigid Transformation is supported."),
     host_machine) /\
  untouched host_machine host_machine.
Proof.
  assert (Hr : run true reference_backend (CallTransform cloud_dense scaling_dense)
                   host_machine
               = (Fatal (Message "Invalid Transformation Matrix. Only Rigid Transformation is supported."),
                  host_machine)) by (vm_compute; reflexivity).
  split; [exact Hr|].
  exact (fatal_error_leaves_buffers_untouched _ _ _ _ _ _ Hr).
Defined.

Lemma returning_call_launches_one_kernel_witness :
  run true reference_backend (CallTransform cloud_dense rigid_dense) host_machine
  = (Ok tt,
     snd (run true reference_backend (CallTransform cloud_dense rigid_dense)
              host_machine)) /\
  exists k ext,
    snd (run true reference_backend (CallTransform cloud_dense rigid_dense)
             host_machine)
    = mkMachine (reference_backend k (heap host_machine ++ ext))
                (launched host_machine ++ [k]) /\
    backend k = OnCPU /\
    same_operation (CallTransform cloud_dense rigid_dense) (kernel_args k).
Proof.
  assert (Hr : run true reference_backend (CallTransform cloud_dense rigid_dense)
                   host_machine
               = (Ok tt,
                  snd (run true reference_backend
                           (CallTransform cloud_dense rigid_dense) host_machine)))
    by (vm_compute; reflexivity).
  split; [exact Hr|].
  exact (returning_call_launches_one_kernel _ _ _ _ _ Hr).
Defined.

Lemma fatal_error_is_one_of_the_operation_witness :
  run false idle_backend
      (CallCreateNormalMap sample_vertex_map sample_vertex_map 1000 3 (7 # 100))
      sample_machine
  = (Fatal (Message "Not compiled with CUDA, but CUDA device is used."),
     sample_machine) /\
  In (Message "Not compiled with CUDA, but CUDA device is used.")
     (errors_of (CallCreateNormalMap sample_vertex_map sample_vertex_map 1000 3
                                     (7 # 100))).
Proof.
  assert (Hr : run false idle_backend
                   (CallCreateNormalMap sample_vertex_map sample_vertex_map 1000 3
                                        (7 # 100)) sample_machine
               = (Fatal (Message "Not compiled with CUDA, but CUDA device is used."),
                  sample_machine)) by reflexivity.
  split; [exact Hr|].
  exact (fatal_error_is_one_of_the_operation _ _ _ _ _ _ Hr).
Defined.

Lemma CreateVertexMap_inconsistent_device_witness :
  GetDevice sample_depth_map
  <> GetDevice (mkTensor [3; 3] [3; 1] Float32 (mkDevice CUDA 1) 1 0) /\
  CreateVertexMap true idle_backend sample_depth_map
                  (mkTensor [3; 3] [3; 1] Float32 (mkDevice CUDA 1) 1 0)
                  sample_vertex_map 1000 3 sample_machine
  = (Fatal (Message "Inconsistent device between depth_map ({}) vs intrinsics ({})"),
     sample_machine).
Proof.
  assert (Hne : GetDevice sample_depth_map
                <> GetDevice (mkTensor [3; 3] [3; 1] Float32 (mkDevice CUDA 1) 1 0))
    by discriminate.
  split; [exact Hne|].
  exact (proj1 (CreateVertexMap_inconsistent_device true idle_backend
                  sample_depth_map _ sample_vertex_map 1000 3 sample_machine) Hne).
Defined.

Lemma Transform_first_failed_assertion_witness :
  GetShape camera_intrinsics <> [4; 4] /\
  Transform true reference_backend cloud_dense camera_intrinsics host_machine
  = (Fatal (Assert AssertShapeFailed), host_machine).
Proof.
  assert (Hne : GetShape camera_intrinsics <> [4; 4]) by discriminate.
  split; [exact Hne|].
  exact (proj1 (proj1 (Transform_first_failed_assertion true reference_backend
                         cloud_dense normals_dense camera_intrinsics host_machine)
                      Hne)).
Defined.

Lemma rigid_test_has_no_lower_bound_witness :
  (forall i, In i rotation_block ->
     (load [-3; 0; 0; 9;  0; -3; 0; 9;  0; 0; -3; 9;  0; 0; 0; 7] i
      <= load eye4 i)%Q) /\
  (forall i, In i bottom_row ->
     (load [-3; 0; 0; 9;  0; -3; 0; 9;  0; 0; -3; 9;  0; 0; 0; 7] i
      == load eye4 i)%Q) /\
  IsValidRigidTransformation eye4 = true /\
  IsValidRigidTransformation
    [-3; 0; 0; 9;  0; -3; 0; 9;  0; 0; -3; 9;  0; 0; 0; 7]%Q = true.
Proof.
  assert (Hblock : forall i, In i rotation_block ->
            (load [-3; 0; 0; 9;  0; -3; 0; 9;  0; 0; -3; 9;  0; 0; 0; 7] i
             <= load eye4 i)%Q).
  { intros i Hi. simpl in Hi.
    repeat (destruct Hi as [<-|Hi]; [by compute|]). destruct Hi. }
  assert (Hbottom : forall i, In i bottom_row ->
            (load [-3; 0; 0; 9;  0; -3; 0; 9;  0; 0; -3; 9;  0; 0; 0; 7] i
             == load eye4 i)%Q).
  { intros i Hi. simpl in Hi.
    repeat (destruct Hi as [<-|Hi]; [by compute|]). destruct Hi. }
  assert (Hacc : IsValidRigidTransformation eye4 = true) by reflexivity.
  repeat (split; [assumption|]).
  exact (rigid_test_has_no_lower_bound eye4 _ Hblock Hbottom Hacc).
Defined.

Lemma Transform_returns_dense_points_witness :
  Transform true reference_backend cloud_view rigid_dense host_machine
  = (Ok (mkTensor [2; 3] [3; 1] Float64 host 6 0),
     snd (Transform true reference_backend cloud_view rigid_dense host_machine)) /\
  dense_version_of host_machine cloud_view (mkTensor [2; 3] [3; 1] Float64 host 6 0).
Proof.
  assert (Hr : Transform true reference_backend cloud_view rigid_dense host_machine
               = (Ok (mkTensor [2; 3] [3; 1] Float64 host 6 0),
                  snd (Transform true reference_backend cloud_view rigid_dense
                                 host_machine)))
    by (vm_compute; reflexivity).
  split; [exact Hr|].
  exact (proj1 (Transform_returns_dense_points _ _ _ _ _ _ _ Hr)).
Defined.

Lemma TransformWithNormals_returns_dense_witness :
  TransformWithNormals true reference_backend cloud_view normals_dense rigid_dense
                       host_machine
  = (Ok (mkTensor [2; 3] [3; 1] Float64 host 6 0, normals_dense),
     snd (TransformWithNormals true reference_backend cloud_view normals_dense
                               rigid_dense host_machine)) /\
  dense_version_of host_machine cloud_view (mkTensor [2; 3] [3; 1] Float64 host 6 0) /\
  dense_version_of host_machine normals_dense normals_dense.
Proof.
  assert (Hr : TransformWithNormals true reference_backend cloud_view normals_dense
                                    rigid_dense host_machine
               = (Ok (mkTensor [2; 3] [3; 1] Float64 host 6 0, normals_dense),
                  snd (TransformWithNormals true reference_backend cloud_view
                                            normals_dense rigid_dense host_machine)))
    by (vm_compute; reflexivity).
  split; [exact Hr|].
  pose proof (TransformWithNormals_returns_dense _ _ _ _ _ _ _ _ _ Hr)
    as (Hp & Hn & _).
  by split.
Defined.

Lemma Unproject_kernel_arguments_witness :
  Unproject true idle_backend sample_depth_map None sample_cloud None
            sample_intrinsics sample_extrinsics 1000 3 1 sample_machine
  = (Ok tt,
     snd (Unproject true idle_backend sample_depth_map None sample_cloud None
                    sample_intrinsics sample_extrinsics 1000 3 1 sample_machine)) /\
  exists intrinsics_d extrinsics_d ext,
    launched (snd (Unproject true idle_backend sample_depth_map None sample_cloud
                             None sample_intrinsics sample_extrinsics 1000 3 1
                             sample_machine))
    = [Launch OnCUDA (UnprojectArgs sample_depth_map None sample_cloud None
                                    intrinsics_d extrinsics_d 1000 3 1)] /\
    elements (heap sample_machine ++ ext) intrinsics_d
    = elements (heap sample_machine) sample_intrinsics.
Proof.
  assert (Hr : Unproject true idle_backend sample_depth_map None sample_cloud None
                         sample_intrinsics sample_extrinsics 1000 3 1
                         sample_machine
               = (Ok tt,
                  snd (Unproject true idle_backend sample_depth_map None
                                 sample_cloud None sample_intrinsics
                                 sample_extrinsics 1000 3 1 sample_machine)))
    by (vm_compute; reflexivity).
  split; [exact Hr|].
  destruct (Unproject_kernel_arguments _ _ _ _ _ _ _ _ _ _ _ _ _ Hr)
    as (i_d & e_d & ext & Hm & _ & _ & Hi & _).
  exists i_d, e_d, ext. split.
  - rewrite Hm. reflexivity.
  - apply Hi; [reflexivity|]. unfold allocated. simpl. lia.
Defined.

Lemma pass_through_dispatchers_witness :
  Project true reference_backend camera_depth None camera_cloud None
          camera_intrinsics camera_extrinsics 1000 3 camera_machine
  = (Ok tt,
     snd (Project true reference_backend camera_depth None camera_cloud None
                  camera_intrinsics camera_extrinsics 1000 3 camera_machine)) /\
  launched (snd (Project true reference_backend camera_depth None camera_cloud None
                         camera_intrinsics camera_extrinsics 1000 3 camera_machine))
  = [Launch OnCPU (ProjectArgs camera_depth None camera_cloud None
                               camera_intrinsics camera_extrinsics 1000 3)].
Proof.
  assert (Hr : Project true reference_backend camera_depth None camera_cloud None
                       camera_intrinsics camera_extrinsics 1000 3 camera_machine
               = (Ok tt,
                  snd (Project true reference_backend camera_depth None
                               camera_cloud None camera_intrinsics
                               camera_extrinsics 1000 3 camera_machine)))
    by (vm_compute; reflexivity).
  split; [exact Hr|].
  rewrite (proj1 (pass_through_dispatchers true reference_backend camera_depth None
                    camera_cloud None camera_intrinsics camera_extrinsics
                    sample_vertex_map sample_vertex_map 1000 3 0 camera_machine)
                 _ Hr).
  reflexivity.
Defined.

Lemma rigid_test_of_dense_matrices_witness :
  matches cloud_dense rigid_dense /\
  matches (mkTensor [2; 3] [3; 1] Float32 host 2 0)
          (mkTensor [4; 4] [1; 4] Float32 host 1 0) /\
  elements (heap host_machine) rigid_dense
  = elements (heap host_machine) (mkTensor [4; 4] [1; 4] Float32 host 1 0) /\
  (fst (Transform true reference_backend cloud_dense rigid_dense host_machine)
   = Fatal (Message "Invalid Transformation Matrix. Only Rigid Transformation is supported.")
   <->
   fst (Transform true reference_backend (mkTensor [2; 3] [3; 1] Float32 host 2 0)
                  (mkTensor [4; 4] [1; 4] Float32 host 1 0) host_machine)
   = Fatal (Message "Invalid Transformation Matrix. Only Rigid Transformation is supported.")).
Proof.
  assert (H1 : matches cloud_dense rigid_dense) by (by repeat split).
  assert (H2 : matches (mkTensor [2; 3] [3; 1] Float32 host 2 0)
                       (mkTensor [4; 4] [1; 4] Float32 host 1 0))
    by (by repeat split).
  assert (He : elements (heap host_machine) rigid_dense
               = elements (heap host_machine)
                          (mkTensor [4; 4] [1; 4] Float32 host 1 0))
    by reflexivity.
  repeat (split; [assumption|]).
  apply (rigid_test_of_dense_matrices true reference_backend _ _ _ _ _ _ H1 H2).
  - left. reflexivity.
  - right. left. discriminate.
  - exact He.
Defined.

Lemma Unproject_keeps_normalized_matrices_witness :
  has_backend true (GetDevice camera_depth) /\
  on_host_float64 (mkTensor [3; 3] [3; 1] Float64 host 5 0) /\
  on_host_float64 eye_dense /\
  Unproject true idle_backend camera_depth None cloud_dense None
            (mkTensor [3; 3] [3; 1] Float64 host 5 0) eye_dense 1000 3 1
            host_machine
  = (Ok tt,
     mkMachine (heap host_machine)
               [Launch OnCPU (UnprojectArgs camera_depth None cloud_dense None
                                (mkTensor [3; 3] [3; 1] Float64 host 5 0)
                                eye_dense 1000 3 1)]).
Proof.
  assert (Hi : on_host_float64 (mkTensor [3; 3] [3; 1] Float64 host 5 0))
    by (by split).
  assert (He : on_host_float64 eye_dense) by (by split).
  repeat (split; [first [exact I | assumption]|]).
  exact (Unproject_keeps_normalized_matrices true idle_backend camera_depth None
           cloud_dense None _ eye_dense 1000 3 1 host_machine eq_refl I
           Hi eq_refl He eq_refl).
Defined.

(** * The rigid-transform test on views *)

(** C1, on failing inputs.  The entries of [rigid_view], in row-major order,
    have no block entry above 1 and a bottom row of zeros, and Transform
    rejects it: the test reads the buffer of the view in buffer order.  The
    entries of [sheared_view] have the bottom-row entry 5 at position 12, and
    Transform accepts it.  Both are 4x4 Float64 tensors on CPU:0, as the
    points are. *)
Theorem rigid_test_misreads_views :
  (matches cloud_dense rigid_view /\
   Forall (fun i => ~ (1 < load (elements (heap host_machine) rigid_view) i)%Q)
          rotation_block /\
   Forall (fun i => (load (elements (heap host_machine) rigid_view) i == 0)%Q)
          bottom_row /\
   fst (Transform true reference_backend cloud_dense rigid_view host_machine)
   = Fatal (Message "Invalid Transformation Matrix. Only Rigid Transformation is supported.")) /\
  (matches cloud_dense sheared_view /\
   Exists (fun i => ~ (load (elements (heap host_machine) sheared_view) i == 0)%Q)
          bottom_row /\
   fst (Transform true reference_backend cloud_dense sheared_view host_machine)
   = Ok cloud_dense).
Proof.
  split.
  - split; [by repeat split|]. split; [|split].
    + unfold rotation_block.
      repeat (constructor; [intros H; vm_compute in H; discriminate H|]).
      constructor.
    + unfold bottom_row.
      repeat (constructor; [vm_compute; reflexivity|]). constructor.
    + vm_compute. reflexivity.
  - split; [by repeat split|]. split.
    + apply Exists_cons_hd. intros H. vm_compute in H. discriminate H.
    + vm_compute. reflexivity.
Qed.

(** C7, on a failing input.  [eye_padded] is a 4x4 Float64 tensor on CPU:0
    with the entries of the identity, as the points and the normals are
    Float64 tensors on CPU:0.  Both overloads of Transform reject it as an
    invalid transformation: behind its pointer, position 12 holds the 1 of
    the third row.  The dense identity [eye_dense] is accepted. *)
Theorem strided_identity_is_rejected :
  elements (heap padded_machine) eye_padded = eye4 /\
  matches_normals padded_cloud padded_normals eye_padded /\
  Transform true reference_backend padded_cloud eye_padded padded_machine
  = (Fatal (Message "Invalid Transformation Matrix. Only Rigid Transformation is supported."),
     padded_machine) /\
  TransformWithNormals true reference_backend padded_cloud padded_normals
                       eye_padded padded_machine
  = (Fatal (Message "Invalid Transformation Matrix. Only Rigid Transformation is supported."),
     padded_machine) /\
  elements (heap host_machine) eye_dense = eye4 /\
  fst (Transform true reference_backend cloud_dense eye_dense host_machine)
  = Ok cloud_dense.
Proof.
  split; [reflexivity|]. split; [by repeat split|].
  repeat split; vm_compute; reflexivity.
Qed.

(** * Intrinsics and extrinsics, in full *)

(** Unproject on a device with a backend: the kernel is given the normalized
    versions of the intrinsics and of the extrinsics, each in its place. *)
Lemma Unproject_run_ok B exec depth image_colors points colors intrinsics
    extrinsics depth_scale depth_max stride m :
  has_value image_colors = has_value colors ->
  has_backend B (GetDevice depth) ->
  exists intrinsics_d extrinsics_d ext,
    normalized_version_of (heap m) (heap m ++ ext) intrinsics intrinsics_d /\
    normalized_version_of (heap m) (heap m ++ ext) extrinsics extrinsics_d /\
    Unproject B exec depth image_colors points colors intrinsics extrinsics
              depth_scale depth_max stride m
    = (Ok tt,
       mkMachine
         (exec (Launch (backend_for (GetDevice depth))
                       (UnprojectArgs depth image_colors points colors
                                      intrinsics_d extrinsics_d depth_scale
                                      depth_max stride))
               (heap m ++ ext))
         (launched m ++ [Launch (backend_for (GetDevice depth))
                                (UnprojectArgs depth image_colors points colors
                                               intrinsics_d extrinsics_d
                                               depth_scale depth_max stride)])).
Proof.
  intros Hpair Hb. unfold Unproject. rewrite (eqb_true_eq _ _ Hpair). simpl.
  rewrite (bind_Ok _ _ m tt m) by done.
  destruct (keeps_elements_normalize intrinsics m)
    as (i_d & ext1 & Hi & Hsi & Hei).
  pose proof (normalized_matrix _ _ _ _ Hi) as [Hhi Hci].
  rewrite (bind_Ok _ _ _ _ _ Hi).
  destruct (keeps_elements_normalize extrinsics
              (mkMachine (heap m ++ ext1) (launched m)))
    as (e_d & ext2 & He & Hse & Hee). simpl in He, Hee.
  pose proof (normalized_matrix _ _ _ _ He) as [Hhe Hce].
  rewrite (bind_Ok _ _ _ _ _ He).
  unfold UnprojectCPU, UnprojectCUDA.
  rewrite (dispatch_run_unit B (GetDevice depth)) by done. simpl.
  exists i_d, e_d, (ext1 ++ ext2). rewrite app_assoc.
  unfold normalized_version_of, allocated in *. simpl in Hee.
  split; [|split; [|reflexivity]].
  - split; [exact Hhi|]. split; [exact Hci|]. split; [exact Hsi|].
    intros Hw Ha. destruct (Hei Hw Ha) as (_ & Hlt & Hel).
    rewrite elements_app by done. exact Hel.
  - split; [exact Hhe|]. split; [exact Hce|]. split; [exact Hse|].
    intros Hw Ha. destruct Hee as (_ & _ & Hel); [done|rewrite length_app; lia|].
    rewrite Hel. by apply elements_app.
Qed.

(** C4, as amended.  Whatever the device of the depth image, Unproject
    launches a kernel exactly when the colour arguments are paired and the
    device has a backend, and that kernel is given, in the place of the
    intrinsics and in the place of the extrinsics, a dense Float64 tensor in
    host memory of the shape and with the elements of the caller's matrix;
    the copies exist when the kernel starts.  CreateVertexMap ends in the
    fatal error of the inconsistent device when the intrinsics are not on the
    device of the depth map; when they are, it launches its kernel on a
    device with a backend and gives it the intrinsics of the caller as they
    are, on the buffers as they were. *)
Theorem Unproject_normalizes_CreateVertexMap_requires_device B exec depth
    image_colors points colors intrinsics extrinsics vertex_map depth_scale
    depth_max stride m :
  (has_value image_colors = has_value colors ->
   has_backend B (GetDevice depth) ->
   exists intrinsics_d extrinsics_d ext,
     normalized_version_of (heap m) (heap m ++ ext) intrinsics intrinsics_d /\
     normalized_version_of (heap m) (heap m ++ ext) extrinsics extrinsics_d /\
     Unproject B exec depth image_colors points colors intrinsics extrinsics
               depth_scale depth_max stride m
     = (Ok tt,
        mkMachine
          (exec (Launch (backend_for (GetDevice depth))
                        (UnprojectArgs depth image_colors points colors
                                       intrinsics_d extrinsics_d depth_scale
                                       depth_max stride))
                (heap m ++ ext))
          (launched m ++ [Launch (backend_for (GetDevice depth))
                                 (UnprojectArgs depth image_colors points colors
                                                intrinsics_d extrinsics_d
                                                depth_scale depth_max stride)]))) /\
  (~ (has_value image_colors = has_value colors /\
      has_backend B (GetDevice depth)) ->
   launched (snd (Unproject B exec depth image_colors points colors intrinsics
                            extrinsics depth_scale depth_max stride m))
   = launched m) /\
  (GetDevice depth <> GetDevice intrinsics ->
   CreateVertexMap B exec depth intrinsics vertex_map depth_scale depth_max m
   = (Fatal (Message "Inconsistent device between depth_map ({}) vs intrinsics ({})"), m)) /\
  (GetDevice depth = GetDevice intrinsics ->
   has_backend B (GetDevice depth) ->
   CreateVertexMap B exec depth intrinsics vertex_map depth_scale depth_max m
   = (Ok tt,
      mkMachine
        (exec (Launch (backend_for (GetDevice depth))
                      (CreateVertexMapArgs depth intrinsics vertex_map
                                           depth_scale depth_max))
              (heap m))
        (launched m ++ [Launch (backend_for (GetDevice depth))
                               (CreateVertexMapArgs depth intrinsics vertex_map
                                                    depth_scale depth_max)]))).
Proof.
  split; [|split; [|split]].
  - apply Unproject_run_ok.
  - intros Hn.
    pose proof (run_outcome B exec
                  (CallUnproject depth image_colors points colors intrinsics
                                 extrinsics depth_scale depth_max stride) m) as H.
    simpl in H.
    destruct (Unproject B exec depth image_colors points colors intrinsics
                        extrinsics depth_scale depth_max stride m)
      as [[[]|e] m']; simpl.
    + destruct H as (Hr & Hb & _). tauto.
    + destruct H as (_ & (Hl & _) & _). exact Hl.
  - intros Hd. unfold CreateVertexMap. by rewrite bool_decide_eq_false_2.
  - intros Hd Hb. unfold CreateVertexMap.
    rewrite bool_decide_eq_true_2 by done. simpl.
    rewrite (bind_Ok _ _ m tt m) by done.
    unfold has_backend, backend_for, launch, CreateVertexMapCPU,
      CreateVertexMapCUDA in *.
    destruct (GetType (GetDevice depth)); [done|by subst B|done].
Qed.

Lemma Unproject_normalizes_CreateVertexMap_requires_device_witness :
  GetDevice sample_depth_map <> GetDevice camera_intrinsics /\
  CreateVertexMap true idle_backend sample_depth_map camera_intrinsics
                  sample_vertex_map 1000 3 sample_machine
  = (Fatal (Message "Inconsistent device between depth_map ({}) vs intrinsics ({})"),
     sample_machine) /\
  has_backend true (GetDevice sample_depth_map) /\
  exists intrinsics_d extrinsics_d ext,
    normalized_version_of (heap sample_machine) (heap sample_machine ++ ext)
                          sample_intrinsics intrinsics_d /\
    normalized_version_of (heap sample_machine) (heap sample_machine ++ ext)
                          sample_extrinsics extrinsics_d /\
    launched (snd (Unproject true idle_backend sample_depth_map None sample_cloud
                             None sample_intrinsics sample_extrinsics 1000 3 1
                             sample_machine))
    = [Launch OnCUDA (UnprojectArgs sample_depth_map None sample_cloud None
                                    intrinsics_d extrinsics_d 1000 3 1)].
Proof.
  assert (Hne : GetDevice sample_depth_map <> GetDevice camera_intrinsics)
    by discriminate.
  assert (Hb : has_backend true (GetDevice sample_depth_map)) by reflexivity.
  pose proof (Unproject_normalizes_CreateVertexMap_requires_device true
                idle_backend sample_depth_map None sample_cloud None
                sample_intrinsics sample_extrinsics sample_vertex_map 1000 3 1
                sample_machine) as (HU & _ & _ & _).
  pose proof (Unproject_normalizes_CreateVertexMap_requires_device true
                idle_backend sample_depth_map None sample_cloud None
                camera_intrinsics sample_extrinsics sample_vertex_map 1000 3 1
                sample_machine) as (_ & _ & HV & _).
  split; [exact Hne|]. split; [exact (HV Hne)|]. split; [exact Hb|].
  destruct (HU eq_refl Hb) as (i_d & e_d & ext & Hi & He & Hr).
  exists i_d, e_d, ext. split; [exact Hi|]. split; [exact He|].
  rewrite Hr. reflexivity.
Defined.

(** * The rigid-transform test on rows within the buffer *)


Lemma check_data_is_row_major m t :
  GetShape t = [4; 4] ->
  IsContiguous t = true \/ GetDtype t <> Float64 \/ GetDevice t <> host ->
  IsValidRigidTransformation (check_data m t)
  = IsValidRigidTransformation (elements (heap m) t).
Proof.
  intros Hs Hd. apply IsValidRigidTransformation_ext.
  intros i Hi. by apply check_data_row_major.
Qed.

(** X14.  Let the points and the 4x4 transformation have the same dtype and
    device, let the transformation be dense, or not already a Float64 tensor
    on CPU:0, and let the row that the test reads lie within its buffer.
    Then Transform ends in the error of the invalid transformation exactly
    when, among the entries of the matrix in row-major order, one at a
    position 0, 1, 2, 4, 5, 6, 8, 9, 10 is greater than 1 or one at a
    position 12, 13, 14 is not 0. *)
Theorem Transform_rejects_dense_iff B exec points transformation m :
  matches points transformation ->
  IsContiguous transformation = true \/
  GetDtype transformation <> Float64 \/ GetDevice transformation <> host ->
  15 <= length (check_data m transformation) ->
  fst (Transform B exec points transformation m)
  = Fatal (Message "Invalid Transformation Matrix. Only Rigid Transformation is supported.")
  <->
  Exists (fun i => (1 < load (elements (heap m) transformation) i)%Q)
         rotation_block \/
  Exists (fun i => ~ (load (elements (heap m) transformation) i == 0)%Q)
         bottom_row.
Proof.
  intros Hm Hd _.
  rewrite Transform_invalid_iff by done.
  rewrite (check_data_is_row_major m transformation (proj1 Hm) Hd).
  apply IsValidRigidTransformation_false.
Qed.

Lemma Transform_rejects_dense_iff_witness :
  matches cloud_dense scaling_dense /\
  15 <= length (check_data host_machine scaling_dense) /\
  fst (Transform true reference_backend cloud_dense scaling_dense host_machine)
  = Fatal (Message "Invalid Transformation Matrix. Only Rigid Transformation is supported.").
Proof.
  assert (Hm : matches cloud_dense scaling_dense) by (by repeat split).
  assert (Hin : 15 <= length (check_data host_machine scaling_dense))
    by (vm_compute; lia).
  split; [exact Hm|]. split; [exact Hin|].
  apply (proj2 (Transform_rejects_dense_iff true reference_backend cloud_dense
                  scaling_dense host_machine Hm (or_introl eq_refl) Hin)).
  left. apply Exists_cons_hd. by vm_compute.
Defined.
